(** * A shallow embedding of the user API of src/api/index.js

    The development models the date utilities ([parseAnyDate],
    [calculateexpiry_date], [getplan_status]), the plan table [PLAN_MAP],
    the status write-back helper [updateplan_statusInDB] and the request
    handlers that use them.

    Conventions of the model:
    - a JavaScript value that reaches the code is a [jsval]; numbers are
      integers (the code never needs fractions on the modelled paths);
    - a Date is its time value in milliseconds since the epoch (UTC), with
      [None] for an Invalid Date (time value NaN);
    - the process clock and time zone form an [env]: the current instant and
      a fixed offset of local time from UTC (no daylight-saving changes);
    - a database row is an association list from column names to values, and
      the table is the list of its rows in the order the store returns them. *)

From Stdlib Require Import ZArith String Ascii List Bool Lia.
From Stdlib Require Import Numbers.DecimalString.
Import ListNotations.

Open Scope Z_scope.

(** ** JavaScript values *)

(** The time value of a Date; [None] is NaN, i.e. an Invalid Date. *)
Definition time_value := option Z.

Inductive jsval : Type :=
| JUndef
| JNull
| JBool (b : bool)
| JNum (n : Z)
| JStr (s : string)
| JDate (t : time_value).

(** ToBoolean. *)
Definition truthy (v : jsval) : bool :=
  match v with
  | JUndef | JNull => false
  | JBool b => b
  | JNum n => negb (n =? 0)
  | JStr s => negb (String.eqb s "")
  | JDate _ => true
  end.

(** [a || b] *)
Definition js_or (a b : jsval) : jsval := if truthy a then a else b.

(** A computation that returns a value or throws (a TypeError on the paths
    modelled here). *)
Inductive js_res (A : Type) : Type :=
| JSRet (a : A)
| JSThrow.
Arguments JSRet {A} a.
Arguments JSThrow {A}.

(** ** Characters and strings *)

Definition char_code (c : ascii) : Z := Z.of_nat (nat_of_ascii c).

Definition is_digit (c : ascii) : bool := (48 <=? char_code c) && (char_code c <=? 57).
Definition is_upper (c : ascii) : bool := (65 <=? char_code c) && (char_code c <=? 90).
Definition is_lower (c : ascii) : bool := (97 <=? char_code c) && (char_code c <=? 122).
Definition is_alpha (c : ascii) : bool := is_upper c || is_lower c.
(** The regular-expression class [\w]. *)
Definition is_word_char (c : ascii) : bool :=
  is_digit c || is_alpha c || Ascii.eqb c "_"%char.
(** The regular-expression class [[-/]]. *)
Definition is_dash_or_slash (c : ascii) : bool :=
  Ascii.eqb c "-"%char || Ascii.eqb c "/"%char.
(** White space as trimmed by StringToNumber (ASCII part). *)
Definition is_space (c : ascii) : bool :=
  Ascii.eqb c " "%char || ((9 <=? char_code c) && (char_code c <=? 13)).

Definition lower_char (c : ascii) : ascii :=
  if is_upper c then ascii_of_nat (nat_of_ascii c + 32) else c.

(** [String.prototype.toLowerCase] on ASCII text. *)
Definition to_lower (s : string) : string :=
  string_of_list_ascii (map lower_char (list_ascii_of_string s)).

Fixpoint span (p : ascii -> bool) (l : list ascii) : list ascii * list ascii :=
  match l with
  | [] => ([], [])
  | c :: r => if p c then let (a, b) := span p r in (c :: a, b) else ([], l)
  end.

Fixpoint drop_while (p : ascii -> bool) (l : list ascii) : list ascii :=
  match l with
  | [] => []
  | c :: r => if p c then drop_while p r else l
  end.

Definition trim (l : list ascii) : list ascii :=
  rev (drop_while is_space (rev (drop_while is_space l))).

Fixpoint digits_value (acc : Z) (l : list ascii) : Z :=
  match l with
  | [] => acc
  | c :: r => digits_value (acc * 10 + (char_code c - 48)) r
  end.

Definition all_digits (l : list ascii) : bool :=
  match l with [] => false | _ => forallb is_digit l end.

(** StringToNumber for decimal integer literals with an optional sign;
    [None] is NaN.  Fractions, exponents, [Infinity] and hexadecimal literals
    are outside this model and give [None]. *)
Definition str_to_number (s : string) : option Z :=
  match trim (list_ascii_of_string s) with
  | [] => Some 0
  | (c :: r) as l =>
      if Ascii.eqb c "-"%char then (if all_digits r then Some (- digits_value 0 r) else None)
      else if Ascii.eqb c "+"%char then (if all_digits r then Some (digits_value 0 r) else None)
      else if all_digits l then Some (digits_value 0 l) else None
  end.

(** [parseInt(s, 10)]: leading white space, an optional sign, then the
    longest run of digits; NaN ([None]) when there is none.  [None] as input
    is [undefined], whose string form ["undefined"] has no digits. *)
Definition parseInt_js (s : option string) : option Z :=
  match s with
  | None => None
  | Some s =>
      let l := drop_while is_space (list_ascii_of_string s) in
      let '(sign, l') :=
        match l with
        | c :: r => if Ascii.eqb c "-"%char then (-1, r)
                    else if Ascii.eqb c "+"%char then (1, r) else (1, l)
        | [] => (1, l)
        end in
      let (ds, _) := span is_digit l' in
      if all_digits ds then Some (sign * digits_value 0 ds) else None
  end.

Definition Z_to_string (n : Z) : string := NilEmpty.string_of_int (Z.to_int n).

(** ToNumber; [None] is NaN. *)
Definition js_to_number (v : jsval) : option Z :=
  match v with
  | JUndef => None
  | JNull => Some 0
  | JBool b => Some (if b then 1 else 0)
  | JNum n => Some n
  | JStr s => str_to_number s
  | JDate t => t
  end.

(** [String(value).length].  A Date reaches this test in [parseAnyDate] only
    when its time value is NaN, whose string form is ["Invalid Date"]. *)
Definition js_string_length (v : jsval) : nat :=
  match v with
  | JUndef => 9
  | JNull => 4
  | JBool b => if b then 4 else 5
  | JNum n => String.length (Z_to_string n)
  | JStr s => String.length s
  | JDate _ => 12
  end.

(** ** Time values, the clock and the local time zone *)

Definition ms_per_day : Z := 86400000.

(** TimeClip: a time value beyond 8.64e15 ms is NaN. *)
Definition time_clip (t : Z) : time_value :=
  if Z.abs t <=? 8640000000000000 then Some t else None.

(** The environment of a request: the current instant ([new Date()]) and the
    offset of local time from UTC, in milliseconds. *)
Record env : Type := mk_env { now_ms : Z; tz_ms : Z }.

(** The local calendar day (days since 1970-01-01) of an instant. *)
Definition local_day (e : env) (t : Z) : Z := (t + tz_ms e) / ms_per_day.

(** [d.setHours(0, 0, 0, 0)]: the start of the local day. *)
Definition set_hours_zero (e : env) (t : time_value) : time_value :=
  match t with
  | Some t => time_clip (local_day e t * ms_per_day - tz_ms e)
  | None => None
  end.

(** [d.setDate(d.getDate() + n)]: move by [n] local calendar days, keeping
    the time of day; [n = None] is NaN (e.g. [getDate() + undefined]). *)
Definition add_days (t : time_value) (n : option Z) : time_value :=
  match t, n with
  | Some t, Some n => time_clip (t + n * ms_per_day)
  | _, _ => None
  end.

(** Days from 1970-01-01 to the proleptic Gregorian date [y-m-d]
    ([1 <= m <= 12]). *)
Definition days_from_civil (y m d : Z) : Z :=
  let y' := if m <=? 2 then y - 1 else y in
  let era := y' / 400 in
  let yoe := y' - era * 400 in
  let mp := (m + 9) mod 12 in
  let doy := (153 * mp + 2) / 5 + d - 1 in
  let doe := yoe * 365 + yoe / 4 - yoe / 100 + doy in
  era * 146097 + doe - 719468.

(** MakeDay(year, month, date) with a zero-based month; a date past the end of
    the month runs into the next one. *)
Definition make_day (year month date : Z) : Z :=
  days_from_civil (year + month / 12) (month mod 12 + 1) 1 + date - 1.

(** ** [new Date(string)]: the engine's date parser (V8)

    Two formats are recognised, as V8 does: the ISO date-only form
    [YYYY-MM-DD], read as UTC midnight, and V8's legacy format: numbers and
    month names separated by white space or other symbols, read in local
    time.  Strings with a time of day, a time-zone name or a parenthesised
    comment are outside this model and give NaN. *)

Definition is_day (n : Z) : bool := (1 <=? n) && (n <=? 31).
Definition is_month (n : Z) : bool := (1 <=? n) && (n <=? 12).

Definition iso_date_only (l : list ascii) : option (Z * Z * Z) :=
  match l with
  | [y1; y2; y3; y4; s1; m1; m2; s2; d1; d2] =>
      if forallb is_digit [y1; y2; y3; y4; m1; m2; d1; d2]
         && Ascii.eqb s1 "-"%char && Ascii.eqb s2 "-"%char
      then Some (digits_value 0 [y1; y2; y3; y4], digits_value 0 [m1; m2],
                 digits_value 0 [d1; d2])
      else None
  | _ => None
  end.

Inductive dtoken : Type :=
| TNum (n : Z)
| TWord (w : list ascii)
| TSym (c : ascii)
| TSpace.

Fixpoint tokenize (fuel : nat) (l : list ascii) : list dtoken :=
  match fuel with
  | O => []
  | S fuel' =>
      match l with
      | [] => []
      | c :: r =>
          if is_digit c then
            let (ds, rest) := span is_digit l in TNum (digits_value 0 ds) :: tokenize fuel' rest
          else if is_alpha c then
            let (ws, rest) := span is_alpha l in TWord ws :: tokenize fuel' rest
          else if is_space c then TSpace :: tokenize fuel' (drop_while is_space r)
          else TSym c :: tokenize fuel' r
      end
  end.

Definition month_names : list string :=
  ["jan"; "feb"; "mar"; "apr"; "may"; "jun"; "jul"; "aug"; "sep"; "oct"; "nov"; "dec"]%string.

Fixpoint index_of (s : string) (l : list string) (i : Z) : option Z :=
  match l with
  | [] => None
  | x :: r => if String.eqb s x then Some i else index_of s r (i + 1)
  end.

(** A word whose first three letters name a month (any length from 3 on). *)
Definition month_of_word (w : list ascii) : option Z :=
  match map lower_char w with
  | a :: b :: c :: _ => index_of (string_of_list_ascii [a; b; c]) month_names 1
  | _ => None
  end.

(** The other keywords of V8's table: AM/PM, time-zone names and the time
    separator [T]. *)
Definition other_keywords : list string :=
  ["am"; "pm"; "ut"; "utc"; "z"; "gmt"; "cdt"; "cst"; "edt"; "est"; "mdt"; "mst";
   "pdt"; "pst"; "t"]%string.

Definition skip_dash (ts : list dtoken) : list dtoken :=
  match ts with
  | TSym c :: r => if Ascii.eqb c "-"%char then r else ts
  | _ => ts
  end.

(** The legacy parser loop: collects up to three numbers and a named month. *)
Fixpoint legacy_scan (ts : list dtoken) (comps : list Z) (named : option Z)
    (has_read_number : bool) : option (list Z * option Z) :=
  match ts with
  | [] => Some (comps, named)
  | TNum n :: rest =>
      match rest with
      | TSym c :: _ =>
          if Ascii.eqb c ":"%char || Ascii.eqb c "."%char then None
          else if (length comps <? 3)%nat
               then legacy_scan (skip_dash rest) (comps ++ [n]) named true
               else None
      | _ =>
          if (length comps <? 3)%nat
          then legacy_scan (skip_dash rest) (comps ++ [n]) named true
          else None
      end
  | TWord w :: rest =>
      match month_of_word w with
      | Some m => legacy_scan (skip_dash rest) comps (Some m) has_read_number
      | None =>
          if existsb (String.eqb (string_of_list_ascii (map lower_char w))) other_keywords
          then None
          else if has_read_number then None
          else match rest with
               | TNum _ :: _ => None
               | _ => legacy_scan rest comps named has_read_number
               end
      end
  | TSym c :: rest =>
      if Ascii.eqb c "("%char then None
      else if (Ascii.eqb c "+"%char || Ascii.eqb c "-"%char) && has_read_number then None
      else legacy_scan rest comps named has_read_number
  | TSpace :: rest => legacy_scan rest comps named has_read_number
  end.

(** V8's DayComposer::Write: pads the numbers with 1, picks year, month and
    day, and maps two-digit years into 1950..2049. *)
Definition day_compose (comps : list Z) (named : option Z) : option (Z * Z * Z) :=
  match comps with
  | [] => None
  | _ =>
      let c0 := nth 0 comps 1 in
      let c1 := nth 1 comps 1 in
      let c2 := nth 2 comps 1 in
      let '(y, m, d) :=
        match named with
        | None => if negb (is_day c0) then (c0, c1, c2) else (c2, c0, c1)
        | Some m => if negb (is_day c0) then (c0, m, c1) else (c1, m, c0)
        end in
      let y := if (0 <=? y) && (y <=? 49) then y + 2000
               else if (50 <=? y) && (y <=? 99) then y + 1900 else y in
      if is_month m && is_day d then Some (y, m, d) else None
  end.

Definition date_parse (e : env) (s : string) : time_value :=
  let l := list_ascii_of_string s in
  match iso_date_only l with
  | Some (y, m, d) =>
      if is_month m && is_day d then time_clip (make_day y (m - 1) d * ms_per_day)
      else None
  | None =>
      match legacy_scan (tokenize (length l) l) [] None false with
      | Some (comps, named) =>
          match day_compose comps named with
          | Some (y, m, d) => time_clip (make_day y (m - 1) d * ms_per_day - tz_ms e)
          | None => None
          end
      | None => None
      end
  end.

(** [new Date(value)] for one argument. *)
Definition js_new_date (e : env) (v : jsval) : time_value :=
  match v with
  | JUndef => None
  | JNull => Some 0
  | JBool b => Some (if b then 1 else 0)
  | JNum n => time_clip n
  | JStr s => date_parse e s
  | JDate t => t
  end.

(** ** [parseAnyDate] *)

(** [/^(\d{1,2})[-/](\d{1,2})[-/](\d{4})$/]; the groups as text. *)
Definition match_dmy (s : string) : option (list ascii * list ascii * list ascii) :=
  let (d, r1) := span is_digit (list_ascii_of_string s) in
  match r1 with
  | s1 :: r1' =>
      let (mo, r2) := span is_digit r1' in
      match r2 with
      | s2 :: r2' =>
          let (y, r3) := span is_digit r2' in
          if (1 <=? length d)%nat && (length d <=? 2)%nat && is_dash_or_slash s1
             && (1 <=? length mo)%nat && (length mo <=? 2)%nat && is_dash_or_slash s2
             && (length y =? 4)%nat && (length r3 =? 0)%nat
          then Some (d, mo, y) else None
      | [] => None
      end
  | [] => None
  end.

(** [/^(\d{1,2})[-/](\w{3,})[-/](\d{2,4})$/i]; the groups as text. *)
Definition match_dmy2 (s : string) : option (list ascii * list ascii * list ascii) :=
  let (d, r1) := span is_digit (list_ascii_of_string s) in
  match r1 with
  | s1 :: r1' =>
      let (mon, r2) := span is_word_char r1' in
      match r2 with
      | s2 :: y =>
          if (1 <=? length d)%nat && (length d <=? 2)%nat && is_dash_or_slash s1
             && (3 <=? length mon)%nat && is_dash_or_slash s2
             && (2 <=? length y)%nat && (length y <=? 4)%nat && forallb is_digit y
          then Some (d, mon, y) else None
      | [] => None
      end
  | [] => None
  end.

(** [s.padStart(2, "0")] *)
Definition pad2 (l : list ascii) : list ascii :=
  match l with
  | [c] => ["0"%char; c]
  | [] => ["0"%char; "0"%char]
  | _ => l
  end.

Definition parseAnyDate (e : env) (value : jsval) : time_value :=
  if negb (truthy value) then Some (now_ms e) else
  match value with
  | JDate (Some t) => Some t
  | _ =>
    let epoch :=
      match js_to_number value with
      | Some num =>
          if (10 <=? js_string_length value)%nat
          then Some (time_clip (if num >? 1000000000000 then num else num * 1000))
          else None
      | None => None
      end in
    match epoch with
    | Some t => t
    | None =>
      match js_new_date e value with
      | Some direct => Some direct
      | None =>
        match value with
        | JStr s =>
            match match_dmy s with
            | Some (d, mo, y) =>
                date_parse e (string_of_list_ascii (y ++ ["-"%char] ++ pad2 mo ++ ["-"%char] ++ pad2 d))
            | None =>
                match match_dmy2 s with
                | Some (d, mon, y) =>
                    let y := if (length y =? 2)%nat then ["2"%char; "0"%char] ++ y else y in
                    date_parse e (string_of_list_ascii (d ++ [" "%char] ++ mon ++ [" "%char] ++ y))
                | None => Some (now_ms e)
                end
            end
        | _ => Some (now_ms e)
        end
      end
    end
  end.

(** ** The plan table [PLAN_MAP] *)

Record plan_rule : Type := mk_rule { rule_amount : Z; rule_valid_days : Z }.

(** What [PLAN_MAP[key]] yields: one of the four own entries, or a member
    that every object literal inherits from [Object.prototype] (a function,
    or the prototype object itself for [__proto__]); both are truthy, and
    neither has an [amount] or a [valid_days] property. *)
Inductive plan_map_value : Type :=
| PlanRule (r : plan_rule)
| ProtoMember.

Definition object_prototype_keys : list string :=
  ["constructor"; "__defineGetter__"; "__defineSetter__"; "hasOwnProperty";
   "__lookupGetter__"; "__lookupSetter__"; "isPrototypeOf"; "propertyIsEnumerable";
   "toString"; "valueOf"; "__proto__"; "toLocaleString"]%string.

Definition plan_entry : plan_rule := mk_rule 100 10.

Definition PLAN_MAP (key : string) : option plan_map_value :=
  if String.eqb key "entry" then Some (PlanRule plan_entry)
  else if String.eqb key "silver" then Some (PlanRule (mk_rule 1770 90))
  else if String.eqb key "gold" then Some (PlanRule (mk_rule 2950 180))
  else if String.eqb key "platinum" then Some (PlanRule (mk_rule 4720 365))
  else if existsb (String.eqb key) object_prototype_keys then Some ProtoMember
  else None.

(** ** [calculateexpiry_date] and [getplan_status] *)

Record expiry_result : Type := mk_expiry {
  expiry_date : time_value;
  amount : jsval;      (** [rule.amount]: a number, or [undefined] *)
  valid_days : jsval   (** [rule.valid_days]: a number, or [undefined] *)
}.

(** [(plan || "entry").toLowerCase()] throws when [plan] is truthy and not a
    string. *)
Definition calculateexpiry_date (e : env) (reg_date plan : jsval) : js_res expiry_result :=
  match js_or plan (JStr "entry") with
  | JStr p =>
      let rule := match PLAN_MAP (to_lower p) with
                  | Some r => r
                  | None => PlanRule plan_entry
                  end in
      let reg := parseAnyDate e reg_date in
      match rule with
      | PlanRule r =>
          JSRet (mk_expiry (add_days reg (Some (rule_valid_days r)))
                           (JNum (rule_amount r)) (JNum (rule_valid_days r)))
      | ProtoMember =>
          JSRet (mk_expiry (add_days reg None) JUndef JUndef)
      end
  | _ => JSThrow
  end.

(** [exp < today] is false when either side is NaN. *)
Definition getplan_status (e : env) (expiry : jsval) : string :=
  let exp := parseAnyDate e expiry in
  let today := set_hours_zero e (Some (now_ms e)) in
  match exp, today with
  | Some x, Some t => if x <? t then "expired" else "active"
  | _, _ => "active"
  end.

(** ** Rows and request bodies

    A row, a request body or a response object is an association list from
    property names to values; a missing property reads as [undefined] (and a
    missing column as SQL NULL). *)

Definition row := list (string * jsval).

Fixpoint get (r : row) (k : string) : jsval :=
  match r with
  | [] => JUndef
  | (k', v) :: r' => if String.eqb k k' then v else get r' k
  end.

(** [obj[k] = v]: an existing property keeps its place, a new one is added
    at the end. *)
Fixpoint set (r : row) (k : string) (v : jsval) : row :=
  match r with
  | [] => [(k, v)]
  | (k', v') :: r' => if String.eqb k k' then (k, v) :: r' else (k', v') :: set r' k v
  end.

(** [v.toLowerCase()]; throws on a value that is not a string. *)
Definition js_lower (v : jsval) : js_res string :=
  match v with
  | JStr s => JSRet (to_lower s)
  | _ => JSThrow
  end.

(** The properties [rowToUser] copies, in its order. *)
Definition user_fields : list string :=
  ["id"; "regno"; "name"; "gender"; "caste"; "caste_category"; "gothram";
   "food_habits"; "reg_date"; "plan"; "amount"; "payment_mode"; "transaction_id";
   "valid_days"; "expiry_date"; "plan_status"; "new_or_renewal"; "marital_status";
   "dob"; "yob"; "age"; "time_of_birth"; "place_of_birth"; "height"; "weight";
   "star"; "paadham"; "rasi"; "lagnam"; "dosham"; "education"; "ug_degree";
   "ug_specialization"; "pg_degree"; "pg_specialization"; "occupation";
   "annual_income"; "father_name"; "father_occupation"; "mother_name";
   "mother_occupation"; "sibling_details"; "native_place"; "current_residence";
   "address"; "city"; "pincode"; "state"; "country"; "ownHouse";
   "property_details"; "expectations"; "remarks"; "flashed_date"; "renewal_date";
   "renewal_amount"; "contact1"; "contact2"; "contact3"; "email"; "created_by";
   "modified_by"; "deleted_by"; "is_deleted"; "created_at"; "updated_at"]%string.

Definition rowToUser (r : row) : row := map (fun k => (k, get r k)) user_fields.

(** SQL [is_deleted = false] holds only for a boolean false. *)
Definition not_deleted (r : row) : bool :=
  match get r "is_deleted" with JBool false => true | _ => false end.

(** SQL [col = $1] with an integer parameter. *)
Definition column_eq (r : row) (col : string) (n : Z) : bool :=
  match get r col with JNum m => m =? n | _ => false end.

(** ** [updateplan_statusInDB] *)

(** The correcting statement
    [UPDATE ... SET plan_status = $1, updateAt = now() WHERE id = $2]. *)
Record status_write : Type := mk_status_write { sw_status : string; sw_id : jsval }.

(** [write_ok] is the store's answer to the correcting statement: [true] when
    the query resolves, [false] when it rejects.  The result is the value the
    helper resolves to ([None] is [null]) or a throw, together with the
    correcting statement it sent, if any. *)
Definition updateplan_statusInDB (e : env) (write_ok : bool) (r : row)
    : js_res (option string) * option status_write :=
  if negb (truthy (get r "id")) then (JSRet None, None) else
  let fallback :=
    match js_lower (js_or (get r "plan_status") (JStr "expired")) with
    | JSRet s => JSRet (Some s)
    | JSThrow => JSThrow
    end in
  let status := getplan_status e (get r "expiry_date") in
  match js_lower (js_or (get r "plan_status") (JStr "")) with
  | JSThrow => (fallback, None)
  | JSRet stored =>
      if String.eqb status stored then (JSRet (Some (to_lower status)), None)
      else
        let w := mk_status_write (to_lower status) (get r "id") in
        if write_ok then (JSRet (Some (to_lower status)), Some w) else (fallback, Some w)
  end.

(** ** GET /api/users *)

(** The post-processing loop over the fetched rows: each row is reconciled,
    mapped and given [currentStatus || mapped.plan_status]. *)
Fixpoint post_process (e : env) (write_ok : row -> bool) (rows : list row)
    : js_res (list row) :=
  match rows with
  | [] => JSRet []
  | r :: rest =>
      match fst (updateplan_statusInDB e (write_ok r) r) with
      | JSThrow => JSThrow
      | JSRet current =>
          let mapped := rowToUser r in
          let cur := match current with Some s => JStr s | None => JNull end in
          let mapped := set mapped "plan_status" (js_or cur (get mapped "plan_status")) in
          match post_process e write_ok rest with
          | JSRet users => JSRet (mapped :: users)
          | JSThrow => JSThrow
          end
      end
  end.

Inductive list_response : Type :=
| ListError (status : Z)
| ListOk (users : list row) (total page limit total_pages : Z).

Definition ceil_div (a b : Z) : Z := - ((- a) / b).

(** [filters] is the conjunction of the search and filter clauses built from
    the query string; the handler always prepends [is_deleted = false].
    [store] lists the table's rows in [ORDER BY created_at DESC] order. *)
Definition list_users (e : env) (filters : row -> bool) (page limit : option string)
    (store : list row) (write_ok : row -> bool) : list_response :=
  let matching := filter (fun r => not_deleted r && filters r) store in
  let page_s := match page with Some p => p | None => "1"%string end in
  let limit_s := match limit with Some l => l | None => "100"%string end in
  (* [parseInt(x, 10) || d]: NaN and 0 are falsy *)
  let page_int := Z.max 1 (match parseInt_js (Some page_s) with
                           | Some n => if n =? 0 then 1 else n | None => 1 end) in
  let per_page := Z.min 1000 (Z.max 1 (match parseInt_js (Some limit_s) with
                                       | Some n => if n =? 0 then 100 else n | None => 100 end)) in
  let offset := (page_int - 1) * per_page in
  let total := Z.of_nat (length matching) in
  let rows := firstn (Z.to_nat per_page) (skipn (Z.to_nat offset) matching) in
  match post_process e write_ok rows with
  | JSRet users => ListOk users total page_int per_page (ceil_div total per_page)
  | JSThrow => ListError 500
  end.

(** ** GET /api/users/check-regno/:regno *)

Inductive check_response : Type :=
| CheckError (status : Z)
| CheckExists (exists_ : bool).

Definition check_regno (regno_param : string) (store : list row) : check_response :=
  match parseInt_js (Some regno_param) with
  | None => CheckError 400
  | Some n => CheckExists (existsb (fun r => column_eq r "regno" n) store)
  end.

(** ** GET /api/users/:regno *)

Inductive fetch_response : Type :=
| FetchError (status : Z)
| FetchOk (user : row).

Fixpoint assoc_str (l : list (string * string)) (k : string) : option string :=
  match l with
  | [] => None
  | (k', v) :: l' => if String.eqb k k' then Some v else assoc_str l' k
  end.

(** [params] are Express's route parameters: for the path pattern
    [/api/users/:regno] the single entry [("regno", segment)]. *)
Definition fetch_one (e : env) (params : list (string * string)) (store : list row)
    : fetch_response :=
  match parseInt_js (assoc_str params "id") with
  | None => FetchError 400
  | Some id =>
      match find (fun r => column_eq r "id" id) store with
      | None => FetchError 404
      | Some doc =>
          if truthy (get doc "is_deleted") then FetchError 404 else
          let today := set_hours_zero e (Some (now_ms e)) in
          let is_active :=
            truthy (get doc "expiry_date") &&
            match js_new_date e (get doc "expiry_date"), today with
            | Some x, Some t => t <=? x
            | _, _ => false
            end in
          FetchOk (set (rowToUser doc) "plan_status"
                     (JStr (if is_active then "active" else "expired")))
      end
  end.

(** ** GET /api/users/renewals-due *)

(** [Number(req.query.days || 10)]; [None] is NaN. *)
Definition renewal_days (days_q : option string) : option Z :=
  match days_q with
  | None => Some 10
  | Some s => if String.eqb s "" then Some 10 else str_to_number s
  end.

(** SQL [expiry_date IS NOT NULL]. *)
Definition expiry_not_null (r : row) : bool :=
  match get r "expiry_date" with JNull | JUndef => false | _ => true end.

(** The object built for one row by the [map] callback, or [null]. *)
Definition annotate_renewal (e : env) (today : time_value) (u : row) : option row :=
  if negb (truthy (get u "expiry_date")) then None else
  let expiry := set_hours_zero e (js_new_date e (get u "expiry_date")) in
  let diff_days :=
    match expiry, today with
    | Some x, Some t => Some (ceil_div (x - t) ms_per_day)
    | _, _ => None
    end in
  let nonneg := match diff_days with Some d => 0 <=? d | None => false end in
  Some (set (set (set (rowToUser u) "expiry_date" (JDate expiry))
                 "daysLeft" (JNum (if nonneg then match diff_days with Some d => d | None => 0 end else 0)))
            "plan_status" (JStr (if nonneg then "active" else "expired"))).

Definition in_window (today limit_date : time_value) (u : row) : bool :=
  match get u "expiry_date", today, limit_date with
  | JDate (Some x), Some t, Some l => (t <=? x) && (x <=? l)
  | _, _, _ => false
  end.

Definition renewals_due (e : env) (days_q : option string) (store : list row) : list row :=
  let days := renewal_days days_q in
  let today := set_hours_zero e (Some (now_ms e)) in
  let limit_date := add_days today days in
  let rows := filter (fun r => not_deleted r && expiry_not_null r) store in
  filter (in_window today limit_date)
    (flat_map (fun u => match annotate_renewal e today u with Some x => [x] | None => [] end) rows).

(** ** The column maps of POST and PUT ([key], [column]) *)

(** Every entry of both maps sends a key to the column of the same name, so
    each map is given by its list of keys. *)
Definition create_keys : list string :=
  ["regno"; "name"; "gender"; "caste"; "caste_category"; "gothram"; "food_habits";
   "reg_date"; "plan"; "amount"; "payment_mode"; "transaction_id"; "valid_days";
   "expiry_date"; "plan_status"; "new_or_renewal"; "marital_status"; "dob"; "yob";
   "age"; "time_of_birth"; "place_of_birth"; "height"; "weight"; "star"; "paadham";
   "rasi"; "lagnam"; "dosham"; "education"; "ug_degree"; "ug_specialization";
   "pg_degree"; "pg_specialization"; "occupation"; "annual_income"; "father_name";
   "father_occupation"; "mother_name"; "mother_occupation"; "sibling_details";
   "native_place"; "current_residence"; "address"; "city"; "pincode"; "state";
   "country"; "own_house"; "property_details"; "expectations"; "remarks";
   "flashed_date"; "renewal_date"; "renewal_amount"; "contact1"; "contact2";
   "contact3"; "email"; "created_by"; "is_deleted"; "created_at"]%string.

Definition create_mapping : list (string * string) := map (fun k => (k, k)) create_keys.

Definition update_keys : list string :=
  ["regno"; "name"; "gender"; "caste"; "caste_category"; "gothram"; "food_habits";
   "reg_date"; "plan"; "amount"; "payment_mode"; "transaction_id"; "valid_days";
   "expiry_date"; "plan_status"; "new_or_renewal"; "marital_status"; "dob"; "yob";
   "age"; "time_of_birth"; "place_of_birth"; "height"; "weight"; "star"; "paadham";
   "rasi"; "lagnam"; "dosham"; "education"; "ug_degree"; "ug_specialization";
   "pg_degree"; "pg_specialization"; "occupation"; "annual_income"; "father_name";
   "father_occupation"; "mother_name"; "mother_occupation"; "sibling_details";
   "native_place"; "current_residence"; "address"; "city"; "pincode"; "state";
   "country"; "ownHouse"; "property_details"; "expectations"; "remarks";
   "flashed_date"; "renewal_date"; "renewal_amount"; "contact1"; "contact2";
   "contact3"; "email"; "created_by"; "modified_by"; "deleted_by"; "is_deleted"]%string.

Definition update_mapping : list (string * string) := map (fun k => (k, k)) update_keys.

(** The loop over [Object.entries(mapping)]: the columns and the parameter
    values of the keys whose value is not [undefined].  The statement text is
    made from the columns and the placeholders [$1 .. $n] only. *)
Definition build_columns (mapping : list (string * string)) (body : row)
    : list string * list jsval :=
  let present := filter (fun kc => match get body (fst kc) with JUndef => false | _ => true end)
                        mapping in
  (map snd present, map (fun kc => get body (fst kc)) present).

(** [if (body[k]) body[k] = parseAnyDate(body[k])] *)
Definition normalize_date (e : env) (body : row) (k : string) : row :=
  if truthy (get body k) then set body k (JDate (parseAnyDate e (get body k))) else body.

(** ** POST /api/users *)

(** The statement the handler sends ([INSERT ... (cols) VALUES ($1..$n)]
    with [values] as parameters), or the status of the response it gives
    without one. *)
Inductive create_outcome : Type :=
| CreateError (status : Z)
| CreateInsert (cols : list string) (values : list jsval).

Definition create_user (e : env) (req_body : row) : create_outcome :=
  let body := req_body in
  let body := normalize_date e body "reg_date" in
  let body := normalize_date e body "dob" in
  let body := normalize_date e body "flashed_date" in
  let body := normalize_date e body "renewal_date" in
  match js_lower (js_or (get body "plan") (JStr "entry")) with
  | JSThrow => CreateError 500
  | JSRet plan =>
      match calculateexpiry_date e (get body "reg_date") (JStr plan) with
      | JSThrow => CreateError 500
      | JSRet r =>
          let body := set body "amount" (amount r) in
          let body := set body "valid_days" (valid_days r) in
          let body := set body "expiry_date" (JDate (expiry_date r)) in
          let body := set body "plan_status"
                        (JStr (to_lower (getplan_status e (JDate (expiry_date r))))) in
          let body := set body "is_deleted" (JBool false) in
          let body := set body "created_at" (JDate (Some (now_ms e))) in
          let (cols, values) := build_columns create_mapping body in
          match cols with
          | [] => CreateError 400
          | _ => CreateInsert cols values
          end
      end
  end.

(** ** PUT /api/users/:regno *)

(** The statement the handler sends
    ([UPDATE ... SET cols = $i, updated_at = now() WHERE regno = $n AND
    is_deleted = false]), or the status of the response it gives without one.
    [store] answers the [SELECT ... WHERE regno = $1 LIMIT 1] that precedes it. *)
Inductive update_outcome : Type :=
| UpdateError (status : Z)
| UpdateSet (cols : list string) (values : list jsval) (regno : Z).

Definition update_user (e : env) (regno_param : string) (req_body : row)
    (store : list row) : update_outcome :=
  match parseInt_js (Some regno_param) with
  | None => UpdateError 400
  | Some regno =>
    let updates := req_body in
    let updates := normalize_date e updates "reg_date" in
    let updates := normalize_date e updates "dob" in
    match find (fun r => column_eq r "regno" regno) store with
    | None => UpdateError 404
    | Some current_doc =>
      if truthy (get current_doc "is_deleted") then UpdateError 404 else
      let recomputed :=
        if truthy (get updates "plan") || truthy (get updates "reg_date") then
          let reg_date := js_or (get updates "reg_date") (get current_doc "reg_date") in
          match js_lower (js_or (js_or (get updates "plan") (get current_doc "plan"))
                                (JStr "entry")) with
          | JSThrow => JSThrow
          | JSRet plan =>
              match calculateexpiry_date e reg_date (JStr plan) with
              | JSThrow => JSThrow
              | JSRet r =>
                  let updates := set updates "expiry_date" (JDate (expiry_date r)) in
                  let updates := set updates "amount" (amount r) in
                  let updates := set updates "valid_days" (valid_days r) in
                  JSRet (set updates "plan_status"
                           (JStr (to_lower (getplan_status e (JDate (expiry_date r))))))
              end
          end
        else JSRet updates in
      match recomputed with
      | JSThrow => UpdateError 400
      | JSRet updates =>
          let (cols, values) := build_columns update_mapping updates in
          match cols with
          | [] => UpdateError 400
          | _ => UpdateSet cols values regno
          end
      end
    end
  end.

(** The row the UPDATE leaves in the table: each listed column set to its
    parameter. *)
Fixpoint apply_set (r : row) (cols : list string) (values : list jsval) : row :=
  match cols, values with
  | c :: cs, v :: vs => apply_set (set r c v) cs vs
  | _, _ => r
  end.

(** ** Configuration and the API-key middleware *)

(** [process.env.API_KEY || "devkey"]; [None] is an unset variable. *)
Definition API_KEY (env_api_key : option string) : string :=
  match env_api_key with
  | Some k => if String.eqb k "" then "devkey" else k
  | None => "devkey"
  end.

(** The API-key middleware: [true] when it calls [next()], [false] when it
    answers 401.  [header] is [req.header("x-api-key")], [None] when the
    request carries none. *)
Definition api_key_check (api_key : string) (method : string) (header : option string) : bool :=
  if String.eqb method "OPTIONS" then true else
  match header with
  | None => false
  | Some key => if String.eqb key "" then false else String.eqb key api_key
  end.

(** ** PATCH /api/users/:regno/delete *)

(** node-postgres sends an [undefined] parameter as NULL. *)
Definition pg_param (v : jsval) : jsval := match v with JUndef => JNull | _ => v end.

(** The table after
    [UPDATE ... SET is_deleted = true, updated_at = now(), deleted_by = $1
    WHERE regno = $2 RETURNING *], or the status of the response without a
    change: 400 for an unparsable regno, 404 when [RETURNING] yields no row.
    The store's clock is the process clock. *)
Inductive delete_outcome : Type :=
| DeleteError (status : Z)
| DeleteOk (store : list row).

Definition delete_user (e : env) (regno_param : string) (body : row) (store : list row)
    : delete_outcome :=
  match parseInt_js (Some regno_param) with
  | None => DeleteError 400
  | Some regno =>
      let hit r := column_eq r "regno" regno in
      let store' :=
        map (fun r => if hit r
                      then set (set (set r "is_deleted" (JBool true))
                                    "updated_at" (JDate (Some (now_ms e))))
                               "deleted_by" (pg_param (get body "deleted_by"))
                      else r) store in
      if existsb hit store then DeleteOk store' else DeleteError 404
  end.

(** ** The statements of GET /api/users

    [req.query] as Express parses a query string in which each key appears
    at most once: its entries are the keys and their text. *)
Definition query := list (string * string).

(** The builder's state: [filters], [params] and [idx]. *)
Record where_state : Type := mk_ws {
  ws_filters : list string;
  ws_params : list jsval;
  ws_idx : Z
}.

(** [`$${i}`] *)
Definition ph (i : Z) : string := ("$" ++ Z_to_string i)%string.

(** [l.join(sep)] *)
Fixpoint join (sep : string) (l : list string) : string :=
  match l with
  | [] => ""%string
  | [x] => x
  | x :: r => (x ++ sep ++ join sep r)%string
  end.

(** A query-string value in an [if (value)] test: present and non-empty. *)
Definition present (v : option string) : bool :=
  match v with Some s => negb (String.eqb s ""%string) | None => false end.

(** The global search on [q]. *)
Definition add_search (q : string) (st : where_state) : where_state :=
  if String.eqb q ""%string then st else
  let '(ors, ps, idx) :=
    match parseInt_js (Some q) with
    | Some n => ([("regno = " ++ ph (ws_idx st))%string], [JNum n], ws_idx st + 1)
    | None => ([], [], ws_idx st)
    end in
  let pat := JStr ("%" ++ q ++ "%")%string in
  let ors := ors ++ [("name ILIKE " ++ ph idx)%string; ("email ILIKE " ++ ph (idx + 1))%string;
                     ("contact1 ILIKE " ++ ph (idx + 2))%string;
                     ("currentResidance ILIKE " ++ ph (idx + 3))%string;
                     ("caste ILIKE " ++ ph (idx + 4))%string] in
  mk_ws (ws_filters st ++ [("(" ++ join " OR " ors ++ ")")%string])
        (ws_params st ++ ps ++ [pat; pat; pat; pat; pat]) (idx + 5).

(** [if (v) { filters.push(`${column} = $${idx}`); params.push(v); idx++; }] *)
Definition add_equal (column : string) (v : option string) (st : where_state) : where_state :=
  match v with
  | Some s =>
      if String.eqb s ""%string then st else
      mk_ws (ws_filters st ++ [(column ++ " = " ++ ph (ws_idx st))%string])
            (ws_params st ++ [JStr s]) (ws_idx st + 1)
  | None => st
  end.

(** The [currentResidingLocation] filter. *)
Definition add_location (v : option string) (st : where_state) : where_state :=
  match v with
  | Some s =>
      if String.eqb s ""%string then st else
      mk_ws (ws_filters st ++ [("currentResidance ILIKE " ++ ph (ws_idx st))%string])
            (ws_params st ++ [JStr ("%" ++ s ++ "%")%string]) (ws_idx st + 1)
  | None => st
  end.

(** The [dob] filter. *)
Definition add_dob (v : option string) (st : where_state) : where_state :=
  match v with
  | Some s =>
      if String.eqb s ""%string then st else
      mk_ws (ws_filters st ++ [("DATE(dob) = DATE(" ++ ph (ws_idx st) ++ ")")%string])
            (ws_params st ++ [JStr s]) (ws_idx st + 1)
  | None => st
  end.

Fixpoint split_comma_aux (cur : list ascii) (l : list ascii) : list (list ascii) :=
  match l with
  | [] => [rev cur]
  | c :: r => if Ascii.eqb c ","%char then rev cur :: split_comma_aux [] r
              else split_comma_aux (c :: cur) r
  end.

(** [String(value).split(",")] *)
Definition split_comma (s : string) : list (list ascii) :=
  split_comma_aux [] (list_ascii_of_string s).

(** [.map(v => v.trim()).filter(Boolean)] *)
Definition multi_values (s : string) : list string :=
  filter (fun v => negb (String.eqb v ""%string))
         (map (fun l => string_of_list_ascii (trim l)) (split_comma s)).

(** [values.map(() => `$${idx++}`)] *)
Fixpoint placeholders (idx : Z) (n : nat) : list string :=
  match n with
  | O => []
  | S n' => ph idx :: placeholders (idx + 1) n'
  end.

(** [if (value) addMultiFilter(column, value)] *)
Definition add_multi (column : string) (v : option string) (st : where_state) : where_state :=
  match v with
  | Some s =>
      if String.eqb s ""%string then st else
      let values := multi_values s in
      match values with
      | [] => st
      | _ => mk_ws (ws_filters st ++ [(column ++ " IN (" ++
                                       join ", " (placeholders (ws_idx st) (length values)) ++ ")")%string])
                   (ws_params st ++ map JStr values)
                   (ws_idx st + Z.of_nat (length values))
      end
  | None => st
  end.

Definition build_where_state (qp : query) : where_state :=
  let q := match assoc_str qp "q"%string with Some s => s | None => ""%string end in
  let st := mk_ws ["is_deleted = false"%string] [] 1 in
  let st := add_search q st in
  let st := add_equal "plan"%string (assoc_str qp "plan"%string) st in
  let st := add_equal "food_habits"%string (assoc_str qp "food_habits"%string) st in
  let st := add_equal "gender"%string (assoc_str qp "gender"%string) st in
  let st := add_equal "education"%string (assoc_str qp "education"%string) st in
  let st := add_equal "marital_status"%string (assoc_str qp "marital_status"%string) st in
  let st := add_location (assoc_str qp "currentResidingLocation"%string) st in
  let st := add_multi "caste"%string (assoc_str qp "caste"%string) st in
  let st := add_multi "yob"%string (assoc_str qp "yob"%string) st in
  let st := add_multi "gothram"%string (assoc_str qp "gothram"%string) st in
  let st := add_multi "height"%string (assoc_str qp "height"%string) st in
  let st := add_multi "weight"%string (assoc_str qp "weight"%string) st in
  let st := add_multi "star"%string (assoc_str qp "star"%string) st in
  let st := add_multi "rasi"%string (assoc_str qp "rasi"%string) st in
  let st := add_multi "dosham"%string (assoc_str qp "dosham"%string) st in
  let st := add_multi "occupation"%string (assoc_str qp "occupation"%string) st in
  let st := add_multi "annual_income"%string (assoc_str qp "annual_income"%string) st in
  add_dob (assoc_str qp "dob"%string) st.

(** [Math.max(1, parseInt(page, 10) || 1)], [page] defaulting to 1. *)
Definition page_int_of (page : option string) : Z :=
  let page_s := match page with Some p => p | None => "1"%string end in
  Z.max 1 (match parseInt_js (Some page_s) with
           | Some n => if n =? 0 then 1 else n | None => 1 end).

(** [Math.min(1000, Math.max(1, parseInt(limit, 10) || 100))], [limit]
    defaulting to 100. *)
Definition per_page_of (limit : option string) : Z :=
  let limit_s := match limit with Some l => l | None => "100"%string end in
  Z.min 1000 (Z.max 1 (match parseInt_js (Some limit_s) with
                       | Some n => if n =? 0 then 100 else n | None => 100 end)).

(** The two statements: the [WHERE] text (shared by the count and the data
    query), the count's parameters, the placeholder numbers of [LIMIT] and
    [OFFSET], and the data query's parameters. *)
Record list_query : Type := mk_list_query {
  lq_where : string;
  lq_params : list jsval;
  lq_limit_ph : Z;
  lq_offset_ph : Z;
  lq_final_params : list jsval
}.

Definition build_list_query (qp : query) : list_query :=
  let st := build_where_state qp in
  let where_ := match ws_filters st with
                | [] => ""%string
                | fs => ("WHERE " ++ join " AND " fs)%string
                end in
  let page_int := page_int_of (assoc_str qp "page"%string) in
  let per_page := per_page_of (assoc_str qp "limit"%string) in
  let offset := (page_int - 1) * per_page in
  mk_list_query where_ (ws_params st) (ws_idx st) (ws_idx st + 1)
                (ws_params st ++ [JNum per_page; JNum offset]).

(** * Properties *)

(** The start of the local day of [t], as [setHours(0, 0, 0, 0)] computes it
    before TimeClip. *)
Definition start_of_local_day (e : env) (t : Z) : Z := local_day e t * ms_per_day - tz_ms e.

Definition valid_time (t : Z) : Prop := Z.abs t <= 8640000000000000.

Lemma time_clip_valid (t : Z) : valid_time t -> time_clip t = Some t.
Proof. unfold valid_time, time_clip; intros H. apply Z.leb_le in H. now rewrite H. Qed.

Lemma before_start_of_day (e : env) (x t : Z) :
  x < start_of_local_day e t <-> local_day e x < local_day e t.
Proof.
  unfold start_of_local_day, local_day, ms_per_day.
  pose proof (Z.div_mod (x + tz_ms e) 86400000 ltac:(lia)) as Hx.
  pose proof (Z.mod_pos_bound (x + tz_ms e) 86400000 ltac:(lia)) as Bx.
  pose proof (Z.div_mod (t + tz_ms e) 86400000 ltac:(lia)) as Ht.
  pose proof (Z.mod_pos_bound (t + tz_ms e) 86400000 ltac:(lia)) as Bt.
  split; intros H; nia.
Qed.

Lemma start_of_day_le (e : env) (t : Z) : start_of_local_day e t <= t.
Proof.
  unfold start_of_local_day, local_day, ms_per_day.
  pose proof (Z.div_mod (t + tz_ms e) 86400000 ltac:(lia)).
  pose proof (Z.mod_pos_bound (t + tz_ms e) 86400000 ltac:(lia)).
  lia.
Qed.

Lemma today_value (e : env) :
  valid_time (start_of_local_day e (now_ms e)) ->
  set_hours_zero e (Some (now_ms e)) = Some (start_of_local_day e (now_ms e)).
Proof. intros H. simpl. now apply time_clip_valid. Qed.

(** ** C6: the status classifier works at calendar-day granularity *)

(** C6.  For an expiry value that normalises to the instant [t] (when the
    start of today is a valid time), [getplan_status] answers "active" exactly
    when the local calendar day of [t] is today or later, and "expired"
    exactly when it is earlier; so an expiry on today's or tomorrow's date is
    active and one on yesterday's date is expired, whatever its time of day. *)
Theorem getplan_status_by_calendar_day (e : env) (v : jsval) (t : Z)
    (Hparse : parseAnyDate e v = Some t)
    (Htoday : valid_time (start_of_local_day e (now_ms e))) :
  (getplan_status e v = "active"%string <-> local_day e (now_ms e) <= local_day e t) /\
  (getplan_status e v = "expired"%string <-> local_day e t < local_day e (now_ms e)) /\
  (local_day e t = local_day e (now_ms e) \/ local_day e t = local_day e (now_ms e) + 1 ->
     getplan_status e v = "active"%string) /\
  (local_day e t = local_day e (now_ms e) - 1 -> getplan_status e v = "expired"%string).
Proof.
  assert (Hs : getplan_status e v =
               if t <? start_of_local_day e (now_ms e) then "expired"%string else "active"%string).
  { unfold getplan_status. rewrite Hparse, (today_value e Htoday). reflexivity. }
  pose proof (before_start_of_day e t (now_ms e)) as Hb.
  rewrite Hs.
  destruct (Z.ltb_spec t (start_of_local_day e (now_ms e))) as [Hlt | Hge].
  - apply Hb in Hlt.
    repeat split; intros H; try discriminate; try lia.
  - assert (~ local_day e t < local_day e (now_ms e)) by (rewrite <- Hb; lia).
    repeat split; intros H'; try discriminate; try lia.
Qed.

(** The instance the claim names: a Date on the current day, on the next day
    and on the previous day, at noon UTC on 2023-11-14 in UTC. *)
Lemma getplan_status_by_calendar_day_witness :
  let e := mk_env 1699963200000 0 in
  getplan_status e (JDate (Some 1699963200000)) = "active"%string /\
  getplan_status e (JDate (Some (1699963200000 + ms_per_day))) = "active"%string /\
  getplan_status e (JDate (Some (1699963200000 - ms_per_day))) = "expired"%string.
Proof.
  intros e.
  assert (Ht : valid_time (start_of_local_day e (now_ms e))) by (vm_compute; discriminate).
  split; [|split].
  - apply (getplan_status_by_calendar_day e (JDate (Some 1699963200000)) 1699963200000 eq_refl Ht). left. reflexivity.
  - apply (getplan_status_by_calendar_day e (JDate (Some (1699963200000 + ms_per_day))) _ eq_refl Ht).
    right. reflexivity.
  - apply (getplan_status_by_calendar_day e (JDate (Some (1699963200000 - ms_per_day))) _ eq_refl Ht).
    reflexivity.
Defined.

(** ** The fetch-one route reads a parameter its path does not declare *)

(** The route [/api/users/:regno] gives Express the single parameter
    [regno], while the handler parses [req.params.id], i.e. [undefined]; so
    every request, whatever its path segment and whatever the table holds, is
    answered 400 "Invalid ID". *)
Theorem fetch_one_always_invalid_id (e : env) (segment : string) (store : list row) :
  fetch_one e [("regno"%string, segment)] store = FetchError 400.
Proof. reflexivity. Qed.

(** ** C5: the expiry calculator and the plan table *)

Lemma parseAnyDate_falsy (e : env) (v : jsval) :
  truthy v = false -> parseAnyDate e v = Some (now_ms e).
Proof. intros H. unfold parseAnyDate. now rewrite H. Qed.

(** The plan rule a lower-cased plan name selects, with the [entry]
    fallback. *)
Definition rule_for (key : string) : plan_rule :=
  match PLAN_MAP key with
  | Some (PlanRule r) => r
  | _ => plan_entry
  end.

Definition is_prototype_key (key : string) : bool :=
  existsb (String.eqb key) object_prototype_keys.

(** For a plan name that is absent, empty, or a string whose lower-case form
    is not a member name of [Object.prototype], the calculator returns the
    table's amount and validity for the lower-cased name ([entry] otherwise)
    and an expiry exactly [valid_days] calendar days after the normalised
    registration date. *)
Lemma calculateexpiry_date_rule (e : env) (reg plan : jsval) (p : string) :
  js_or plan (JStr "entry") = JStr p ->
  is_prototype_key (to_lower p) = false ->
  calculateexpiry_date e reg plan =
    JSRet (mk_expiry (add_days (parseAnyDate e reg) (Some (rule_valid_days (rule_for (to_lower p)))))
                     (JNum (rule_amount (rule_for (to_lower p))))
                     (JNum (rule_valid_days (rule_for (to_lower p))))).
Proof.
  intros Hp Hproto. unfold calculateexpiry_date. rewrite Hp.
  unfold rule_for, PLAN_MAP. unfold is_prototype_key in Hproto. rewrite Hproto.
  destruct (String.eqb (to_lower p) "entry"); [reflexivity|].
  destruct (String.eqb (to_lower p) "silver"); [reflexivity|].
  destruct (String.eqb (to_lower p) "gold"); [reflexivity|].
  destruct (String.eqb (to_lower p) "platinum"); reflexivity.
Qed.

(** C5.  The fallback [PLAN_MAP[key] || PLAN_MAP.entry] does not apply to the
    unrecognised plan name "constructor": the lookup finds the member
    inherited from [Object.prototype], so amount and valid_days are
    [undefined] and the expiry date is an Invalid Date, for every registration
    date. *)
Theorem calculateexpiry_date_constructor_plan (e : env) (reg : jsval) :
  calculateexpiry_date e reg (JStr "constructor") = JSRet (mk_expiry None JUndef JUndef).
Proof.
  unfold calculateexpiry_date. cbv - [parseAnyDate].
  destruct (parseAnyDate e reg); reflexivity.
Qed.

(** ** C7: the date normaliser on four spellings of 2023-03-15 *)


(** In a time zone five hours behind UTC the numeric-month spellings are
    rebuilt as ISO dates ["2023-03-15"], which the engine reads as UTC
    midnight, i.e. 2023-03-14 19:00 local time, while the month-name
    spellings are read as local midnight of 2023-03-15: the local calendar
    dates differ. *)
Theorem parseAnyDate_four_spellings_utc_minus_5 :
  let e := mk_env 1700000000000 (-18000000) in
  option_map (local_day e) (parseAnyDate e (JStr "15-03-2023")) = Some (days_from_civil 2023 3 14) /\
  option_map (local_day e) (parseAnyDate e (JStr "15/3/2023")) = Some (days_from_civil 2023 3 14) /\
  option_map (local_day e) (parseAnyDate e (JStr "15-Mar-23")) = Some (days_from_civil 2023 3 15) /\
  option_map (local_day e) (parseAnyDate e (JStr "15-Mar-2023")) = Some (days_from_civil 2023 3 15).
Proof. vm_compute. repeat split. Qed.

(** ** A falsy expiry value *)

Lemma getplan_status_falsy (e : env) (v : jsval) :
  truthy v = false -> getplan_status e v = "active"%string.
Proof.
  intros H. unfold getplan_status. rewrite (parseAnyDate_falsy e v H).
  unfold set_hours_zero, time_clip.
  destruct (Z.abs (local_day e (now_ms e) * ms_per_day - tz_ms e) <=? 8640000000000000);
    [|reflexivity].
  pose proof (start_of_day_le e (now_ms e)) as Hle. unfold start_of_local_day in Hle.
  destruct (Z.ltb_spec (now_ms e) (local_day e (now_ms e) * ms_per_day - tz_ms e)).
  - lia.
  - reflexivity.
Qed.

(** ** The status write-back on the list path *)

(** A stored [plan_status] as the text column holds it: a string or NULL. *)
Definition status_column (v : jsval) : bool :=
  match v with JStr _ | JNull | JUndef => true | _ => false end.

Definition text_of (v : jsval) : string :=
  match v with JStr s => s | _ => ""%string end.

(** The status the list path reports for a row with a truthy [id] and a text
    [plan_status]: the freshly computed one, except when a correction is due
    and the correcting write fails; then the stored one, lower-cased, or
    "expired" when none is stored. *)
Definition reported_status (e : env) (write_ok : bool) (r : row) : string :=
  let fresh := getplan_status e (get r "expiry_date") in
  let stored := get r "plan_status" in
  if write_ok || String.eqb fresh (to_lower (text_of (js_or stored (JStr ""))))
  then fresh
  else to_lower (text_of (js_or stored (JStr "expired"))).

Lemma getplan_status_cases (e : env) (v : jsval) :
  getplan_status e v = "active"%string \/ getplan_status e v = "expired"%string.
Proof.
  unfold getplan_status.
  destruct (parseAnyDate e v), (set_hours_zero e (Some (now_ms e))); auto.
  destruct (_ <? _); auto.
Qed.

Lemma to_lower_status (e : env) (v : jsval) :
  to_lower (getplan_status e v) = getplan_status e v.
Proof. destruct (getplan_status_cases e v) as [-> | ->]; reflexivity. Qed.

Lemma to_lower_nonempty (s : string) : s <> ""%string -> to_lower s <> ""%string.
Proof. destruct s; [congruence|]. intros _. unfold to_lower. simpl. discriminate. Qed.

Lemma truthy_nonempty (s : string) : s <> ""%string -> truthy (JStr s) = true.
Proof. intros H. simpl. destruct (String.eqb_spec s ""); [congruence|reflexivity]. Qed.

Lemma reported_status_nonempty (e : env) (w : bool) (r : row) :
  status_column (get r "plan_status") = true -> reported_status e w r <> ""%string.
Proof.
  intros Hs. unfold reported_status.
  destruct (w || _).
  - destruct (getplan_status_cases e (get r "expiry_date")) as [-> | ->]; intros H; inversion H.
  - destruct (get r "plan_status") as [| | b | n | s | t]; try discriminate Hs.
    + intros H; inversion H.
    + intros H; inversion H.
    + unfold js_or. destruct (truthy (JStr s)) eqn:Ht.
      * simpl text_of. apply to_lower_nonempty. intros ->. discriminate Ht.
      * intros H; inversion H.
Qed.

Lemma updateplan_statusInDB_result (e : env) (w : bool) (r : row) :
  truthy (get r "id") = true -> status_column (get r "plan_status") = true ->
  fst (updateplan_statusInDB e w r) = JSRet (Some (reported_status e w r)).
Proof.
  intros Hid Hs. unfold updateplan_statusInDB, reported_status. rewrite Hid. simpl negb.
  cbv iota.
  assert (Hl : forall d, truthy d = true \/ d = JStr "" -> (exists x, d = JStr x) ->
            js_lower (js_or (get r "plan_status") d) =
            JSRet (to_lower (text_of (js_or (get r "plan_status") d)))).
  { intros d _ [x ->]. unfold js_or.
    destruct (get r "plan_status") as [| | b | n | s | t]; try discriminate; simpl; try reflexivity.
    destruct (negb (String.eqb s "")); reflexivity. }
  rewrite (Hl (JStr "") ltac:(right; reflexivity) ltac:(eexists; reflexivity)).
  rewrite (Hl (JStr "expired") ltac:(left; reflexivity) ltac:(eexists; reflexivity)).
  rewrite to_lower_status.
  destruct (String.eqb (getplan_status e (get r "expiry_date"))
                       (to_lower (text_of (js_or (get r "plan_status") (JStr ""))))) eqn:Heq.
  - rewrite orb_true_r. reflexivity.
  - rewrite orb_false_r. destruct w; reflexivity.
Qed.

(** Rows whose status the list path can reconcile: a truthy [id] (the
    store's key) and a text [plan_status]. *)
Definition reconcilable (r : row) : Prop :=
  truthy (get r "id") = true /\ status_column (get r "plan_status") = true.

Lemma post_process_reported (e : env) (write_ok : row -> bool) (rows : list row) :
  Forall reconcilable rows ->
  post_process e write_ok rows =
    JSRet (map (fun r => set (rowToUser r) "plan_status" (JStr (reported_status e (write_ok r) r))) rows).
Proof.
  induction 1 as [| r rows [Hid Hs] _ IH]; [reflexivity|].
  simpl. rewrite (updateplan_statusInDB_result e (write_ok r) r Hid Hs), IH.
  unfold js_or. rewrite (truthy_nonempty _ (reported_status_nonempty e (write_ok r) r Hs)).
  reflexivity.
Qed.

Lemma Forall_firstn {A} (P : A -> Prop) (n : nat) (l : list A) :
  Forall P l -> Forall P (firstn n l).
Proof. intros H. rewrite <- (firstn_skipn n l) in H. now apply Forall_app in H. Qed.

Lemma Forall_skipn {A} (P : A -> Prop) (n : nat) (l : list A) :
  Forall P l -> Forall P (skipn n l).
Proof. intros H. rewrite <- (firstn_skipn n l) in H. now apply Forall_app in H. Qed.

Lemma Forall_filter' {A} (P : A -> Prop) (f : A -> bool) (l : list A) :
  Forall P l -> Forall P (filter f l).
Proof.
  rewrite !Forall_forall. intros H x Hx. apply filter_In in Hx. now apply H.
Qed.

Lemma list_users_ok (e : env) (filters : row -> bool) (page limit : option string)
    (store : list row) (write_ok : row -> bool) :
  Forall reconcilable store ->
  exists users total p l tp, list_users e filters page limit store write_ok = ListOk users total p l tp.
Proof.
  intros H. unfold list_users.
  rewrite post_process_reported
    by (apply Forall_firstn, Forall_skipn, Forall_filter'; exact H).
  do 5 eexists. reflexivity.
Qed.

(** ** C1: a failed correcting write on the list path *)

(** C1 (as the code has it).  On the list path the write-back never makes the
    read fail: for rows with a key and a text status the handler answers with
    the page of users, each carrying [reported_status]; that is the freshly
    computed status whenever the correcting write succeeds or is not needed,
    and, when the write is due and fails, the stored status lower-cased (or
    "expired" when none is stored). *)
Theorem list_users_write_back_non_fatal (e : env) (filters : row -> bool)
    (page limit : option string) (store : list row) (write_ok : row -> bool) :
  Forall reconcilable store ->
  (exists users total p l tp, list_users e filters page limit store write_ok = ListOk users total p l tp) /\
  (forall rows, Forall reconcilable rows ->
     post_process e write_ok rows =
       JSRet (map (fun r => set (rowToUser r) "plan_status" (JStr (reported_status e (write_ok r) r))) rows)) /\
  (forall r, reconcilable r ->
     let fresh := getplan_status e (get r "expiry_date") in
     let stored := get r "plan_status" in
     (write_ok r = true -> reported_status e (write_ok r) r = fresh) /\
     (String.eqb fresh (to_lower (text_of (js_or stored (JStr "")))) = true ->
        reported_status e (write_ok r) r = fresh) /\
     (write_ok r = false -> String.eqb fresh (to_lower (text_of (js_or stored (JStr "")))) = false ->
        reported_status e (write_ok r) r = to_lower (text_of (js_or stored (JStr "expired"))))).
Proof.
  intros H. split; [now apply list_users_ok|]. split.
  - intros rows Hr. now apply post_process_reported.
  - intros r _ fresh stored. unfold reported_status. fold fresh stored.
    repeat split; intros H1; [rewrite H1; reflexivity | rewrite H1, orb_true_r; reflexivity |].
    intros H2. rewrite H1, H2. reflexivity.
Qed.

Definition e_nov14 : env := mk_env 1699963200000 0.

Definition row_stale_active : row :=
  [("id", JNum 1); ("regno", JNum 1001); ("is_deleted", JBool false);
   ("expiry_date", JDate (Some (1699963200000 - ms_per_day)));
   ("plan_status", JStr "Active")]%string.

(** C1 fails as stated: a row that expired yesterday is stored as "Active";
    the correcting write is rejected; the list answers "active", not the
    freshly computed "expired". *)
Lemma list_users_failed_write_reports_stored :
  getplan_status e_nov14 (get row_stale_active "expiry_date") = "expired"%string /\
  match list_users e_nov14 (fun _ => true) None None [row_stale_active] (fun _ => false) with
  | ListOk [u] _ _ _ _ => get u "plan_status" = JStr "active"
  | _ => False
  end.
Proof. vm_compute. split; reflexivity. Qed.

Lemma list_users_failed_write_reports_stored_witness :
  Forall reconcilable [row_stale_active] /\
  exists users total p l tp,
    list_users e_nov14 (fun _ => true) None None [row_stale_active] (fun _ => false)
    = ListOk users total p l tp.
Proof.
  assert (H : Forall reconcilable [row_stale_active])
    by (repeat constructor).
  split; [exact H|].
  exact (proj1 (list_users_write_back_non_fatal e_nov14 (fun _ => true) None None
                  [row_stale_active] (fun _ => false) H)).
Defined.

(** ** C10: a missing expiry date *)

(** C10 (as the code has it).  A falsy expiry value is classified "active"
    (it normalises to the current instant); on the list path a row with no
    expiry date is reported "active" when the correcting write succeeds or is
    not needed, and with its stored status (lower-cased, "expired" when none
    is stored) when the correction is due and the write fails. *)
Theorem null_expiry_status (e : env) :
  (forall v, truthy v = false -> getplan_status e v = "active"%string) /\
  (forall (write_ok : row -> bool) (rows : list row),
     Forall reconcilable rows ->
     Forall (fun r => truthy (get r "expiry_date") = false) rows ->
     post_process e write_ok rows =
       JSRet (map (fun r =>
                let stored := get r "plan_status" in
                set (rowToUser r) "plan_status"
                  (JStr (if write_ok r || String.eqb "active" (to_lower (text_of (js_or stored (JStr ""))))
                         then "active"
                         else to_lower (text_of (js_or stored (JStr "expired"))))))
              rows)).
Proof.
  split; [exact (getplan_status_falsy e)|].
  intros write_ok rows Hr Hnull. rewrite (post_process_reported e write_ok rows Hr).
  apply (f_equal (@JSRet (list row))). apply map_ext_in. intros r Hin.
  rewrite Forall_forall in Hnull. specialize (Hnull r Hin).
  unfold reported_status. rewrite (getplan_status_falsy e _ Hnull). reflexivity.
Qed.

Definition row_no_expiry : row :=
  [("id", JNum 2); ("regno", JNum 1002); ("is_deleted", JBool false);
   ("expiry_date", JNull); ("plan_status", JStr "expired")]%string.

(** C10 fails as stated: a row with a NULL expiry date stored as "expired",
    whose correcting write is rejected, is listed as "expired". *)
Lemma list_users_null_expiry_failed_write :
  match list_users e_nov14 (fun _ => true) None None [row_no_expiry] (fun _ => false) with
  | ListOk [u] _ _ _ _ => get u "plan_status" = JStr "expired"
  | _ => False
  end.
Proof. vm_compute. reflexivity. Qed.

Lemma null_expiry_status_witness :
  post_process e_nov14 (fun _ => true) [row_no_expiry]
  = JSRet [set (rowToUser row_no_expiry) "plan_status" (JStr "active")].
Proof.
  rewrite (proj2 (null_expiry_status e_nov14) (fun _ => true) [row_no_expiry]
             ltac:(repeat constructor) ltac:(repeat constructor)).
  reflexivity.
Defined.

(** ** C4: soft-deleted records on the read paths *)

Definition soft_deleted (r : row) : bool :=
  match get r "is_deleted" with JBool true => true | _ => false end.

Lemma filter_filter_weaker {A} (f g : A -> bool) (l : list A) :
  (forall x, f x = true -> g x = true) -> filter f (filter g l) = filter f l.
Proof.
  intros H. induction l as [| x l IH]; [reflexivity|]. simpl.
  destruct (g x) eqn:Hg; simpl.
  - destruct (f x); now rewrite IH.
  - destruct (f x) eqn:Hf; [specialize (H x Hf); congruence | exact IH].
Qed.

Lemma find_some_prop {A} (f : A -> bool) (l : list A) (x : A) :
  find f l = Some x -> In x l /\ f x = true.
Proof.
  induction l as [| y l IH]; simpl; [discriminate|].
  destruct (f y) eqn:Hy; [intros [= <-]; auto | intros H; destruct (IH H); auto].
Qed.

Lemma existsb_true {A} (f : A -> bool) (l : list A) (x : A) :
  In x l -> f x = true -> existsb f l = true.
Proof. intros Hin Hx. apply existsb_exists. eauto. Qed.

(** C4 (as the code has it).  The list answers exactly as if the soft-deleted
    rows were absent, and an update addressed to a soft-deleted record is
    answered 404 as for a missing one; the existence check, however, counts
    soft-deleted rows: it reports [exists = true] for any registration number
    held by some row, deleted or not. *)
Theorem soft_deleted_on_read_paths (e : env) :
  (forall filters page limit store write_ok,
     list_users e filters page limit (filter (fun r => negb (soft_deleted r)) store) write_ok =
     list_users e filters page limit store write_ok) /\
  (forall regno_param body store n r,
     parseInt_js (Some regno_param) = Some n ->
     find (fun r => column_eq r "regno" n) store = Some r ->
     soft_deleted r = true ->
     update_user e regno_param body store = UpdateError 404) /\
  (forall regno_param store n r,
     parseInt_js (Some regno_param) = Some n ->
     In r store -> column_eq r "regno" n = true ->
     check_regno regno_param store = CheckExists true).
Proof.
  split; [|split].
  - intros. unfold list_users.
    rewrite filter_filter_weaker; [reflexivity|].
    intros r. unfold not_deleted, soft_deleted.
    destruct (get r "is_deleted") as [| | [|] | | |]; simpl; congruence.
  - intros p body store n r Hp Hfind Hdel. unfold update_user. rewrite Hp.
    cbv zeta. rewrite Hfind.
    unfold soft_deleted in Hdel.
    destruct (get r "is_deleted") as [| | [|] | | |]; try discriminate. reflexivity.
  - intros p store n r Hp Hin Heq. unfold check_regno. rewrite Hp.
    f_equal. exact (existsb_true _ _ r Hin Heq).
Qed.

Definition row_deleted_7 : row :=
  [("id", JNum 7); ("regno", JNum 7); ("is_deleted", JBool true);
   ("plan_status", JStr "active")]%string.

(** C4 fails as stated: with a single row, soft-deleted and holding
    registration number 7, the existence check reports [exists = true], while
    on an empty table it reports [false]. *)
Lemma check_regno_counts_soft_deleted :
  check_regno "7" [row_deleted_7] = CheckExists true /\ check_regno "7" [] = CheckExists false.
Proof. split; reflexivity. Qed.

Lemma soft_deleted_on_read_paths_witness :
  update_user e_nov14 "7" [("name", JStr "x")]%string [row_deleted_7] = UpdateError 404 /\
  check_regno "7" [row_deleted_7] = CheckExists true.
Proof.
  split.
  - exact (proj1 (proj2 (soft_deleted_on_read_paths e_nov14)) "7"%string _ [row_deleted_7] 7 row_deleted_7
             eq_refl eq_refl eq_refl).
  - exact (proj2 (proj2 (soft_deleted_on_read_paths e_nov14)) "7"%string [row_deleted_7] 7 row_deleted_7
             eq_refl (or_introl eq_refl) eq_refl).
Defined.

(** ** The column builder and the forced plan fields *)

Lemma get_set (r : row) (k k' : string) (v : jsval) :
  get (set r k v) k' = if String.eqb k' k then v else get r k'.
Proof.
  induction r as [| [k0 v0] r IH]; simpl.
  - destruct (String.eqb k' k); reflexivity.
  - destruct (String.eqb_spec k k0) as [-> | Hne]; simpl.
    + destruct (String.eqb k' k0); reflexivity.
    + rewrite IH. destruct (String.eqb_spec k' k) as [-> | Hne']; [|reflexivity].
      destruct (String.eqb_spec k k0); [congruence | reflexivity].
Qed.

(** The parameter value written to column [c] by a statement with columns
    [cols] and parameters [values]. *)
Fixpoint written (cols : list string) (values : list jsval) (c : string) : option jsval :=
  match cols, values with
  | c' :: cs, v :: vs => if String.eqb c c' then Some v else written cs vs c
  | _, _ => None
  end.

Definition defined (v : jsval) : bool := match v with JUndef => false | _ => true end.

Lemma build_columns_written (keys : list string) (body : row) (c : string) :
  written (fst (build_columns (map (fun k => (k, k)) keys) body))
          (snd (build_columns (map (fun k => (k, k)) keys) body)) c =
  if existsb (String.eqb c) keys && defined (get body c) then Some (get body c) else None.
Proof.
  unfold build_columns. simpl.
  induction keys as [| k keys IH]; [reflexivity|]. simpl.
  destruct (get body k) eqn:Hk; simpl;
    destruct (String.eqb_spec c k) as [-> | Hne]; simpl;
    try (rewrite IH; try rewrite Hk; simpl; try reflexivity;
         destruct (existsb (String.eqb k) keys); reflexivity);
    try (rewrite Hk; reflexivity);
    try (rewrite IH; reflexivity).
Qed.

Lemma lower_char_idem (c : ascii) : lower_char (lower_char c) = lower_char c.
Proof.
  unfold lower_char. destruct (is_upper c) eqn:Hu; [|now rewrite Hu].
  unfold is_upper, char_code in *.
  apply andb_true_iff in Hu as [H1 H2]. apply Z.leb_le in H1, H2.
  rewrite nat_ascii_embedding by lia.
  replace (65 <=? Z.of_nat (nat_of_ascii c + 32) ) with true by (symmetry; apply Z.leb_le; lia).
  replace (Z.of_nat (nat_of_ascii c + 32) <=? 90) with false by (symmetry; apply Z.leb_gt; lia).
  reflexivity.
Qed.

Lemma to_lower_idem (s : string) : to_lower (to_lower s) = to_lower s.
Proof.
  unfold to_lower. rewrite list_ascii_of_string_of_list_ascii, map_map.
  f_equal. apply map_ext. apply lower_char_idem.
Qed.

Lemma js_or_entry_nonempty (v : jsval) (p : string) :
  js_or v (JStr "entry") = JStr p -> p <> ""%string.
Proof.
  unfold js_or. destruct (truthy v) eqn:Ht; intros H.
  - subst v. simpl in Ht. intros ->. discriminate.
  - injection H as <-. discriminate.
Qed.

Lemma truthy_normalize_date (e : env) (body : row) (k k' : string) :
  truthy (get (normalize_date e body k) k') = truthy (get body k').
Proof.
  unfold normalize_date. destruct (truthy (get body k)) eqn:Hk; [|reflexivity].
  rewrite get_set. destruct (String.eqb_spec k' k) as [-> | _]; [|reflexivity].
  rewrite Hk. reflexivity.
Qed.

Lemma get_normalize_date_other (e : env) (body : row) (k k' : string) :
  k' <> k -> get (normalize_date e body k) k' = get body k'.
Proof.
  intros Hne. unfold normalize_date. destruct (truthy (get body k)); [|reflexivity].
  rewrite get_set. destruct (String.eqb_spec k' k); [congruence | reflexivity].
Qed.

(** The calculator applied to a lower-cased plan name, as both handlers call
    it. *)
Lemma calculateexpiry_date_lowered (e : env) (reg : jsval) (p : string) :
  p <> ""%string -> is_prototype_key (to_lower p) = false ->
  calculateexpiry_date e reg (JStr (to_lower p)) =
    JSRet (mk_expiry (add_days (parseAnyDate e reg) (Some (rule_valid_days (rule_for (to_lower p)))))
                     (JNum (rule_amount (rule_for (to_lower p))))
                     (JNum (rule_valid_days (rule_for (to_lower p))))).
Proof.
  intros Hne Hproto.
  rewrite (calculateexpiry_date_rule e reg (JStr (to_lower p)) (to_lower p)).
  - now rewrite to_lower_idem.
  - unfold js_or. now rewrite (truthy_nonempty _ (to_lower_nonempty p Hne)).
  - now rewrite to_lower_idem.
Qed.

(** The body the create handler has after normalising its dates. *)
Definition create_dates (e : env) (body : row) : row :=
  normalize_date e (normalize_date e (normalize_date e (normalize_date e body "reg_date")
    "dob") "flashed_date") "renewal_date".

Lemma create_user_plan_fields (e : env) (body : row) (p : string) :
  js_or (get body "plan") (JStr "entry") = JStr p ->
  is_prototype_key (to_lower p) = false ->
  exists cols values,
    create_user e body = CreateInsert cols values /\
    written cols values "amount" = Some (JNum (rule_amount (rule_for (to_lower p)))) /\
    written cols values "valid_days" = Some (JNum (rule_valid_days (rule_for (to_lower p)))) /\
    exists rd,
      (written cols values "reg_date" = Some rd \/
       (written cols values "reg_date" = None /\ rd = JUndef)) /\
      written cols values "expiry_date" =
        Some (JDate (add_days (parseAnyDate e rd) (Some (rule_valid_days (rule_for (to_lower p)))))).
Proof.
  intros Hp Hproto. unfold create_user. fold (create_dates e body).
  assert (Hplan : get (create_dates e body) "plan" = get body "plan").
  { unfold create_dates. rewrite !get_normalize_date_other by discriminate. reflexivity. }
  rewrite Hplan, Hp. cbn [js_lower].
  rewrite (calculateexpiry_date_lowered e _ p (js_or_entry_nonempty _ _ Hp) Hproto).
  cbn [amount valid_days expiry_date].
  set (B := set (set (set (set (set (set (create_dates e body) "amount" _) "valid_days" _)
                  "expiry_date" _) "plan_status" _) "is_deleted" _) "created_at" _).
  destruct (build_columns create_mapping B) as [cols vals] eqn:Hb.
  pose proof (build_columns_written create_keys B) as Hw.
  fold create_mapping in Hw. rewrite Hb in Hw. cbn [fst snd] in Hw.
  assert (Hdel : written cols vals "is_deleted" = Some (JBool false)).
  { rewrite Hw. unfold B. rewrite !get_set. reflexivity. }
  exists cols, vals. split; [destruct cols; [discriminate | reflexivity]|].
  split; [rewrite Hw; unfold B; rewrite !get_set; reflexivity|].
  split; [rewrite Hw; unfold B; rewrite !get_set; reflexivity|].
  exists (get (create_dates e body) "reg_date"). split.
  - rewrite Hw. unfold B. rewrite !get_set. cbn -[create_dates].
    destruct (get (create_dates e body) "reg_date"); auto.
  - rewrite Hw. unfold B. rewrite !get_set. reflexivity.
Qed.

(** The payload the update handler has after normalising its dates. *)
Definition update_dates (e : env) (body : row) : row :=
  normalize_date e (normalize_date e body "reg_date") "dob".

Lemma update_user_plan_fields (e : env) (regno_param : string) (body : row)
    (store : list row) (n : Z) (cur : row) (p : string) :
  parseInt_js (Some regno_param) = Some n ->
  find (fun r => column_eq r "regno" n) store = Some cur ->
  truthy (get cur "is_deleted") = false ->
  truthy (get body "plan") || truthy (get body "reg_date") = true ->
  js_or (js_or (get body "plan") (get cur "plan")) (JStr "entry") = JStr p ->
  is_prototype_key (to_lower p) = false ->
  exists cols values,
    update_user e regno_param body store = UpdateSet cols values n /\
    written cols values "amount" = Some (JNum (rule_amount (rule_for (to_lower p)))) /\
    written cols values "valid_days" = Some (JNum (rule_valid_days (rule_for (to_lower p)))) /\
    written cols values "expiry_date" =
      Some (JDate (add_days (parseAnyDate e (js_or (get (update_dates e body) "reg_date")
                                                   (get cur "reg_date")))
                            (Some (rule_valid_days (rule_for (to_lower p)))))).
Proof.
  intros Hn Hfind Hdel Htrig Hp Hproto. unfold update_user. rewrite Hn.
  cbv zeta. fold (update_dates e body). rewrite Hfind, Hdel.
  assert (Hplan : get (update_dates e body) "plan" = get body "plan").
  { unfold update_dates. rewrite !get_normalize_date_other by discriminate. reflexivity. }
  assert (Htrig' : truthy (get (update_dates e body) "plan")
                   || truthy (get (update_dates e body) "reg_date") = true).
  { unfold update_dates. rewrite !truthy_normalize_date. exact Htrig. }
  rewrite Htrig', Hplan, Hp. cbn [js_lower negb].
  rewrite (calculateexpiry_date_lowered e _ p (js_or_entry_nonempty _ _ Hp) Hproto).
  cbn [amount valid_days expiry_date].
  set (B := set (set (set (set (update_dates e body) "expiry_date" _) "amount" _)
                  "valid_days" _) "plan_status" _).
  destruct (build_columns update_mapping B) as [cols vals] eqn:Hb.
  pose proof (build_columns_written update_keys B) as Hw.
  fold update_mapping in Hw. rewrite Hb in Hw. cbn [fst snd] in Hw.
  assert (Ham : written cols vals "amount" = Some (JNum (rule_amount (rule_for (to_lower p))))).
  { rewrite Hw. unfold B. rewrite !get_set. reflexivity. }
  exists cols, vals. split; [destruct cols; [discriminate | reflexivity]|].
  split; [exact Ham|].
  split; rewrite Hw; unfold B; rewrite !get_set; reflexivity.
Qed.

(** The fields the plan recalculation sets. *)
Definition plan_keys : list string := ["amount"; "valid_days"; "expiry_date"; "plan_status"]%string.

Lemma update_user_untriggered (e : env) (regno_param : string) (body : row)
    (store : list row) (n : Z) (cur : row) :
  parseInt_js (Some regno_param) = Some n ->
  find (fun r => column_eq r "regno" n) store = Some cur ->
  truthy (get cur "is_deleted") = false ->
  truthy (get body "plan") || truthy (get body "reg_date") = false ->
  update_user e regno_param body store =
    let (cols, values) := build_columns update_mapping (update_dates e body) in
    match cols with [] => UpdateError 400 | _ => UpdateSet cols values n end.
Proof.
  intros Hn Hfind Hdel Htrig. unfold update_user. rewrite Hn.
  cbv zeta. fold (update_dates e body). rewrite Hfind, Hdel.
  assert (Htrig' : truthy (get (update_dates e body) "plan")
                   || truthy (get (update_dates e body) "reg_date") = false).
  { unfold update_dates. rewrite !truthy_normalize_date. exact Htrig. }
  rewrite Htrig'. reflexivity.
Qed.

Lemma plan_keys_update (e : env) (body : row) (k : string) :
  In k plan_keys ->
  existsb (String.eqb k) update_keys = true /\ get (update_dates e body) k = get body k.
Proof.
  intros Hk. split.
  - repeat (destruct Hk as [<- | Hk]; [reflexivity|]). destruct Hk.
  - unfold update_dates.
    rewrite !get_normalize_date_other; [reflexivity| |];
      repeat (destruct Hk as [<- | Hk]; [intros H; discriminate H|]); destruct Hk.
Qed.

(** Without a truthy plan or reg_date in the payload, update recalculates
    nothing: amount, valid_days, expiry_date and plan_status are written
    exactly as the caller sent them, or not at all. *)
Lemma update_user_plan_fields_as_given (e : env) (regno_param : string) (body : row)
    (store : list row) (n : Z) (cur : row) :
  parseInt_js (Some regno_param) = Some n ->
  find (fun r => column_eq r "regno" n) store = Some cur ->
  truthy (get cur "is_deleted") = false ->
  truthy (get body "plan") || truthy (get body "reg_date") = false ->
  (forall cols values, update_user e regno_param body store = UpdateSet cols values n ->
     forall k, In k plan_keys ->
       written cols values k = if defined (get body k) then Some (get body k) else None) /\
  (forall k, In k plan_keys -> defined (get body k) = true ->
     exists cols values, update_user e regno_param body store = UpdateSet cols values n /\
       written cols values k = Some (get body k)).
Proof.
  intros Hn Hfind Hdel Htrig.
  rewrite (update_user_untriggered e regno_param body store n cur Hn Hfind Hdel Htrig).
  pose proof (build_columns_written update_keys (update_dates e body)) as Hw.
  fold update_mapping in Hw.
  destruct (build_columns update_mapping (update_dates e body)) as [cols vals] eqn:Hb.
  cbn [fst snd] in Hw.
  assert (Hk : forall k, In k plan_keys ->
            written cols vals k = if defined (get body k) then Some (get body k) else None).
  { intros k Hin. destruct (plan_keys_update e body k Hin) as [H1 H2].
    rewrite Hw, H1, H2. reflexivity. }
  split.
  - intros cols' values' Heq k Hin.
    destruct cols as [| c cols]; [discriminate Heq|]. injection Heq as <- <-. exact (Hk k Hin).
  - intros k Hin Hdef. pose proof (Hk k Hin) as Hwk. rewrite Hdef in Hwk.
    destruct cols as [| c cols]; [discriminate Hwk|].
    exists (c :: cols), vals. split; [reflexivity | exact Hwk].
Qed.

(** ** C3: amount and valid_days on create and update *)

(** C3 (as the code has it).  For a plan name that is not a member name of
    [Object.prototype]: create always writes the table's amount and
    valid_days for the lower-cased submitted plan ([entry] when it is absent,
    empty or unknown) and an expiry [valid_days] days after the registration
    date it writes, overriding whatever the caller sent for these fields.
    Update does the same, for the payload's plan, else the stored plan, else
    [entry], and the payload's registration date, else the stored one, when
    the payload carries a truthy plan or reg_date.  Only then: without one,
    the caller's amount, valid_days, expiry_date and plan_status are written
    exactly as given (or not at all when absent). *)
Theorem plan_fields_written (e : env) :
  (forall body p,
     js_or (get body "plan") (JStr "entry") = JStr p ->
     is_prototype_key (to_lower p) = false ->
     exists cols values,
       create_user e body = CreateInsert cols values /\
       written cols values "amount" = Some (JNum (rule_amount (rule_for (to_lower p)))) /\
       written cols values "valid_days" = Some (JNum (rule_valid_days (rule_for (to_lower p)))) /\
       exists rd,
         (written cols values "reg_date" = Some rd \/
          (written cols values "reg_date" = None /\ rd = JUndef)) /\
         written cols values "expiry_date" =
           Some (JDate (add_days (parseAnyDate e rd) (Some (rule_valid_days (rule_for (to_lower p))))))) /\
  (forall regno_param body store n cur p,
     parseInt_js (Some regno_param) = Some n ->
     find (fun r => column_eq r "regno" n) store = Some cur ->
     truthy (get cur "is_deleted") = false ->
     truthy (get body "plan") || truthy (get body "reg_date") = true ->
     js_or (js_or (get body "plan") (get cur "plan")) (JStr "entry") = JStr p ->
     is_prototype_key (to_lower p) = false ->
     exists cols values,
       update_user e regno_param body store = UpdateSet cols values n /\
       written cols values "amount" = Some (JNum (rule_amount (rule_for (to_lower p)))) /\
       written cols values "valid_days" = Some (JNum (rule_valid_days (rule_for (to_lower p)))) /\
       written cols values "expiry_date" =
         Some (JDate (add_days (parseAnyDate e (js_or (get (update_dates e body) "reg_date")
                                                      (get cur "reg_date")))
                               (Some (rule_valid_days (rule_for (to_lower p))))))) /\
  (forall regno_param body store n cur,
     parseInt_js (Some regno_param) = Some n ->
     find (fun r => column_eq r "regno" n) store = Some cur ->
     truthy (get cur "is_deleted") = false ->
     truthy (get body "plan") || truthy (get body "reg_date") = false ->
     (forall cols values, update_user e regno_param body store = UpdateSet cols values n ->
        forall k, In k plan_keys ->
          written cols values k = if defined (get body k) then Some (get body k) else None) /\
     (forall k, In k plan_keys -> defined (get body k) = true ->
        exists cols values, update_user e regno_param body store = UpdateSet cols values n /\
          written cols values k = Some (get body k))).
Proof.
  split; [|split].
  - intros body p. apply create_user_plan_fields.
  - intros regno_param body store n cur p. apply update_user_plan_fields.
  - intros regno_param body store n cur. apply update_user_plan_fields_as_given.
Qed.

Definition row_gold : row :=
  [("id", JNum 3); ("regno", JNum 1003); ("is_deleted", JBool false);
   ("reg_date", JDate (Some 1699963200000)); ("plan", JStr "gold");
   ("amount", JNum 2950); ("valid_days", JNum 180)]%string.

(** C3 fails as stated: an update of a gold record whose payload is only
    [{amount: 5}] sends [SET amount = 5], leaving the record with plan gold
    and amount 5, while the table's gold amount is 2950. *)
Lemma update_amount_only_overrides_table :
  update_user e_nov14 "1003" [("amount", JNum 5)]%string [row_gold] = UpdateSet ["amount"%string] [JNum 5] 1003 /\
  get (apply_set row_gold ["amount"%string] [JNum 5]) "amount" = JNum 5 /\
  get row_gold "plan" = JStr "gold" /\
  rule_amount (rule_for "gold") = 2950.
Proof. repeat split; reflexivity. Qed.

Lemma plan_fields_written_witness :
  (exists cols values,
     create_user e_nov14 [("plan", JStr "Gold"); ("amount", JNum 1)]%string = CreateInsert cols values /\
     written cols values "amount" = Some (JNum 2950)) /\
  (exists cols values,
     update_user e_nov14 "1003" [("plan", JStr "silver"); ("amount", JNum 1)]%string [row_gold]
       = UpdateSet cols values 1003 /\
     written cols values "amount" = Some (JNum 1770)) /\
  (exists cols values,
     update_user e_nov14 "1003" [("amount", JNum 5)]%string [row_gold] = UpdateSet cols values 1003 /\
     written cols values "amount" = Some (JNum 5)).
Proof.
  split; [|split].
  - destruct (proj1 (plan_fields_written e_nov14) [("plan", JStr "Gold"); ("amount", JNum 1)]%string
                "Gold"%string eq_refl eq_refl) as (cols & values & H1 & H2 & _).
    exists cols, values. split; [exact H1 | exact H2].
  - destruct (proj1 (proj2 (plan_fields_written e_nov14)) "1003"%string
                [("plan", JStr "silver"); ("amount", JNum 1)]%string [row_gold] 1003 row_gold
                "silver"%string eq_refl eq_refl eq_refl eq_refl eq_refl eq_refl)
      as (cols & values & H1 & H2 & _).
    exists cols, values. split; [exact H1 | exact H2].
  - destruct (proj2 (proj2 (plan_fields_written e_nov14)) "1003"%string
                [("amount", JNum 5)]%string [row_gold] 1003 row_gold
                eq_refl eq_refl eq_refl eq_refl) as [_ H].
    exact (H "amount"%string (or_introl eq_refl) eq_refl).
Defined.

(** ** C8: the column builder of create and update *)

Inductive subseq {A : Type} : list A -> list A -> Prop :=
| subseq_nil : subseq [] []
| subseq_skip (x : A) (l l' : list A) : subseq l l' -> subseq l (x :: l')
| subseq_keep (x : A) (l l' : list A) : subseq l l' -> subseq (x :: l) (x :: l').

Lemma build_columns_subseq (keys : list string) (body : row) :
  subseq (fst (build_columns (map (fun k => (k, k)) keys) body)) keys /\
  length (snd (build_columns (map (fun k => (k, k)) keys) body)) =
  length (fst (build_columns (map (fun k => (k, k)) keys) body)).
Proof.
  unfold build_columns. cbn [fst snd].
  induction keys as [| k keys [IH1 IH2]]; [split; constructor|]. simpl.
  destruct (get body k); simpl;
    (split; [first [apply subseq_keep; exact IH1 | apply subseq_skip; exact IH1] | simpl; lia]).
Qed.

Lemma build_columns_none (keys : list string) (body : row) :
  (forall k, In k keys -> get body k = JUndef) ->
  build_columns (map (fun k => (k, k)) keys) body = ([], []).
Proof.
  intros H. unfold build_columns.
  replace (filter _ _) with (@nil (string * string)); [reflexivity|].
  induction keys as [| k keys IH]; [reflexivity|]. simpl.
  rewrite (H k (or_introl eq_refl)). apply IH. intros k' Hk. apply H. now right.
Qed.

Definition agree_on (keys : list string) (b1 b2 : row) : Prop :=
  forall k, In k keys -> get b1 k = get b2 k.

Lemma agree_on_set (keys : list string) (b1 b2 : row) (k : string) (v : jsval) :
  agree_on keys b1 b2 -> agree_on keys (set b1 k v) (set b2 k v).
Proof. intros H j Hj. rewrite !get_set. destruct (String.eqb j k); auto. Qed.

Lemma agree_on_set_outside (keys : list string) (b : row) (k : string) (v : jsval) :
  ~ In k keys -> agree_on keys (set b k v) b.
Proof.
  intros Hk j Hj. rewrite get_set.
  destruct (String.eqb_spec j k) as [-> | _]; [contradiction | reflexivity].
Qed.

Lemma agree_on_normalize (e : env) (keys : list string) (b1 b2 : row) (k : string) :
  In k keys -> agree_on keys b1 b2 ->
  agree_on keys (normalize_date e b1 k) (normalize_date e b2 k).
Proof.
  intros Hk H. unfold normalize_date. rewrite (H k Hk).
  destruct (truthy (get b2 k)); [|exact H].
  rewrite <- (H k Hk). now apply agree_on_set.
Qed.

Lemma build_columns_agree (keys : list string) (b1 b2 : row) :
  agree_on keys b1 b2 ->
  build_columns (map (fun k => (k, k)) keys) b1 = build_columns (map (fun k => (k, k)) keys) b2.
Proof.
  intros H. unfold build_columns.
  assert (Hf : filter (fun kc => match get b1 (fst kc) with JUndef => false | _ => true end)
                      (map (fun k => (k, k)) keys) =
               filter (fun kc => match get b2 (fst kc) with JUndef => false | _ => true end)
                      (map (fun k => (k, k)) keys)).
  { apply filter_ext_in. intros kc Hin. apply in_map_iff in Hin as (k0 & <- & Hk0).
    simpl. now rewrite (H k0 Hk0). }
  rewrite Hf. f_equal. apply map_ext_in. intros kc Hin.
  apply filter_In in Hin as [Hin _]. apply in_map_iff in Hin as (k0 & <- & Hk0).
  simpl. now rewrite (H k0 Hk0).
Qed.

Lemma in_keys (k : string) (keys : list string) : existsb (String.eqb k) keys = true -> In k keys.
Proof.
  intros H. apply existsb_exists in H as (x & Hx & Heq).
  apply String.eqb_eq in Heq. now subst.
Qed.

Lemma create_user_agree (e : env) (b1 b2 : row) :
  agree_on create_keys b1 b2 -> create_user e b1 = create_user e b2.
Proof.
  intros H. unfold create_user. fold (create_dates e b1) (create_dates e b2).
  assert (A : agree_on create_keys (create_dates e b1) (create_dates e b2)).
  { unfold create_dates.
    repeat (apply agree_on_normalize; [apply in_keys; reflexivity|]). exact H. }
  rewrite (A "plan"%string ltac:(apply in_keys; reflexivity)).
  rewrite (A "reg_date"%string ltac:(apply in_keys; reflexivity)).
  destruct (js_lower _) as [plan|]; [|reflexivity].
  destruct (calculateexpiry_date _ _ _) as [r|]; [|reflexivity].
  match goal with
  | |- ?L = ?R =>
      lazymatch L with context [build_columns create_mapping ?X1] =>
      lazymatch R with context [build_columns create_mapping ?X2] =>
      assert (HB : build_columns create_mapping X1 = build_columns create_mapping X2)
        by (apply build_columns_agree; repeat apply agree_on_set; exact A);
      rewrite HB end end
  end.
  reflexivity.
Qed.

Lemma update_user_agree (e : env) (regno_param : string) (b1 b2 : row) (store : list row) :
  agree_on update_keys b1 b2 -> update_user e regno_param b1 store = update_user e regno_param b2 store.
Proof.
  intros H. unfold update_user. destruct (parseInt_js _) as [n|]; [|reflexivity].
  cbv zeta. fold (update_dates e b1) (update_dates e b2).
  assert (A : agree_on update_keys (update_dates e b1) (update_dates e b2)).
  { unfold update_dates.
    repeat (apply agree_on_normalize; [apply in_keys; reflexivity|]). exact H. }
  destruct (find _ store) as [cur|]; [|reflexivity].
  destruct (truthy (get cur "is_deleted")); [reflexivity|].
  rewrite (A "plan"%string ltac:(apply in_keys; reflexivity)).
  rewrite (A "reg_date"%string ltac:(apply in_keys; reflexivity)).
  destruct (truthy (get (update_dates e b2) "plan") || truthy (get (update_dates e b2) "reg_date")).
  - destruct (js_lower _) as [plan|]; [|reflexivity].
    destruct (calculateexpiry_date _ _ _) as [r|]; [|reflexivity].
    match goal with
    | |- ?L = ?R =>
      lazymatch L with context [build_columns update_mapping ?X1] =>
      lazymatch R with context [build_columns update_mapping ?X2] =>
        assert (HB : build_columns update_mapping X1 = build_columns update_mapping X2)
          by (apply build_columns_agree; repeat apply agree_on_set; exact A);
        rewrite HB end end
    end.
    reflexivity.
  - pose proof (build_columns_agree update_keys _ _ A) as HB. fold update_mapping in HB.
    rewrite HB. reflexivity.
Qed.

Lemma not_in_keys (k : string) (keys : list string) :
  existsb (String.eqb k) keys = false -> ~ In k keys.
Proof.
  intros H Hin.
  assert (existsb (String.eqb k) keys = true)
    by (apply existsb_exists; exists k; split; [exact Hin | apply String.eqb_refl]).
  congruence.
Qed.

Lemma create_user_columns (e : env) (body : row) (cols : list string) (values : list jsval) :
  create_user e body = CreateInsert cols values ->
  subseq cols create_keys /\ length values = length cols.
Proof.
  unfold create_user.
  destruct (js_lower _) as [plan|]; [|discriminate].
  destruct (calculateexpiry_date _ _ _) as [r|]; [|discriminate].
  match goal with
  | |- context [build_columns create_mapping ?X] =>
      pose proof (build_columns_subseq create_keys X) as Hs;
      fold create_mapping in Hs;
      destruct (build_columns create_mapping X) as [c v] eqn:Hb
  end.
  try rewrite Hb in Hs. cbn [fst snd] in Hs.
  destruct c as [| c0 c]; intros Heq; inversion Heq; subst; exact Hs.
Qed.

Lemma update_user_columns (e : env) (regno_param : string) (body : row) (store : list row)
    (cols : list string) (values : list jsval) (n : Z) :
  update_user e regno_param body store = UpdateSet cols values n ->
  subseq cols update_keys /\ length values = length cols.
Proof.
  unfold update_user. destruct (parseInt_js _) as [m|]; [|discriminate]. cbv zeta.
  destruct (find _ store) as [cur|]; [|discriminate].
  destruct (truthy (get cur "is_deleted")); [discriminate|].
  match goal with
  | |- match ?R with JSThrow => _ | JSRet _ => _ end = _ -> _ =>
      destruct R as [u|]; [|discriminate]
  end.
  pose proof (build_columns_subseq update_keys u) as Hs. fold update_mapping in Hs.
  destruct (build_columns update_mapping u) as [c v] eqn:Hb.
  try rewrite Hb in Hs. cbn [fst snd] in Hs.
  destruct c as [| c0 c]; intros Heq; inversion Heq; subst; exact Hs.
Qed.

Lemma update_user_no_keys_status (e : env) (regno_param : string) (body : row) (store : list row) :
  (forall k, In k update_keys -> get body k = JUndef) ->
  update_user e regno_param body store =
    UpdateError (match parseInt_js (Some regno_param) with
                 | None => 400
                 | Some n =>
                     match find (fun r => column_eq r "regno" n) store with
                     | None => 404
                     | Some cur => if truthy (get cur "is_deleted") then 404 else 400
                     end
                 end).
Proof.
  intros H. unfold update_user. destruct (parseInt_js _); [|reflexivity]. cbv zeta.
  fold (update_dates e body).
  assert (Hd : update_dates e body = body).
  { unfold update_dates, normalize_date.
    rewrite (H "reg_date"%string ltac:(apply in_keys; reflexivity)). cbn [truthy].
    rewrite (H "dob"%string ltac:(apply in_keys; reflexivity)). reflexivity. }
  rewrite Hd.
  destruct (find _ store) as [cur|]; [|reflexivity].
  destruct (truthy (get cur "is_deleted")); [reflexivity|].
  rewrite (H "plan"%string ltac:(apply in_keys; reflexivity)).
  rewrite (H "reg_date"%string ltac:(apply in_keys; reflexivity)). cbn [truthy orb].
  pose proof (build_columns_none update_keys body H) as HB. fold update_mapping in HB.
  rewrite HB. reflexivity.
Qed.

Lemma agree_on_empty (keys : list string) (body : row) :
  (forall k, In k keys -> get body k = JUndef) -> agree_on keys body [].
Proof. intros H k Hk. rewrite (H k Hk). reflexivity. Qed.

(** On an empty payload create adds its six columns, whatever the clock. *)
Lemma create_user_empty (e : env) :
  exists values, create_user e [] =
    CreateInsert ["amount"; "valid_days"; "expiry_date"; "plan_status"; "is_deleted";
                  "created_at"]%string values.
Proof.
  eexists. unfold create_user. cbv -[parseAnyDate add_days getplan_status now_ms].
  reflexivity.
Qed.

Lemma create_user_no_keys (e : env) (body : row) :
  (forall k, In k create_keys -> get body k = JUndef) ->
  exists values, create_user e body =
    CreateInsert ["amount"; "valid_days"; "expiry_date"; "plan_status"; "is_deleted";
                  "created_at"]%string values.
Proof.
  intros H. rewrite (create_user_agree e body [] (agree_on_empty _ _ H)).
  apply create_user_empty.
Qed.

(** C8.  Every INSERT of create and every SET of update names only
    whitelisted columns, in whitelist order, with one parameter per column,
    and a key outside the whitelist changes neither outcome.  An update
    payload without any whitelisted key is answered 404 when the record is
    missing or deleted and 400 otherwise.  Create, however, never rejects
    such a payload: its [if (!cols.length)] test cannot fire, because the
    handler has already added six columns of its own, and the payload gives
    an INSERT of exactly those six columns. *)
Theorem field_mapper_whitelist (e : env) (regno_param : string) (store : list row) :
  (forall body cols values, create_user e body = CreateInsert cols values ->
     subseq cols create_keys /\ length values = length cols) /\
  (forall body cols values n, update_user e regno_param body store = UpdateSet cols values n ->
     subseq cols update_keys /\ length values = length cols) /\
  (forall body k v, ~ In k create_keys -> create_user e (set body k v) = create_user e body) /\
  (forall body k v, ~ In k update_keys ->
     update_user e regno_param (set body k v) store = update_user e regno_param body store) /\
  (forall body, (forall k, In k update_keys -> get body k = JUndef) ->
     update_user e regno_param body store =
       UpdateError (match parseInt_js (Some regno_param) with
                    | None => 400
                    | Some n =>
                        match find (fun r => column_eq r "regno" n) store with
                        | None => 404
                        | Some cur => if truthy (get cur "is_deleted") then 404 else 400
                        end
                    end)) /\
  (forall body, (forall k, In k create_keys -> get body k = JUndef) ->
     exists values, create_user e body =
       CreateInsert ["amount"; "valid_days"; "expiry_date"; "plan_status"; "is_deleted";
                     "created_at"]%string values).
Proof.
  split; [exact (create_user_columns e)|].
  split; [intros body cols values n; exact (update_user_columns e regno_param body store cols values n)|].
  split; [intros body k v Hk; apply create_user_agree, agree_on_set_outside, Hk|].
  split; [intros body k v Hk; apply update_user_agree, agree_on_set_outside, Hk|].
  split; [intros body; exact (update_user_no_keys_status e regno_param body store)|].
  exact (create_user_no_keys e).
Qed.

Definition body_foo : row := [("foo", JNum 1)]%string.

(** A concrete run of create on a payload without any whitelisted key: the
    handler inserts the six columns it sets itself. *)
Lemma create_user_no_whitelisted_key_inserts :
  (forall k, In k create_keys -> get body_foo k = JUndef) /\
  create_user e_nov14 body_foo =
    CreateInsert ["amount"; "valid_days"; "expiry_date"; "plan_status"; "is_deleted";
                  "created_at"]%string
                 [JNum 100; JNum 10; JDate (Some 1700827200000); JStr "active";
                  JBool false; JDate (Some 1699963200000)].
Proof.
  split; [|vm_compute; reflexivity].
  intros k Hk. unfold body_foo. cbn [get].
  destruct (String.eqb_spec k "foo") as [-> | _]; [|reflexivity].
  exfalso. exact (not_in_keys "foo" create_keys eq_refl Hk).
Qed.

Lemma field_mapper_whitelist_witness :
  update_user e_nov14 "1001" body_foo [row_stale_active] = UpdateError 400 /\
  create_user e_nov14 (set body_foo "bar" (JNum 2)) = create_user e_nov14 body_foo /\
  exists values, create_user e_nov14 body_foo =
    CreateInsert ["amount"; "valid_days"; "expiry_date"; "plan_status"; "is_deleted";
                  "created_at"]%string values.
Proof.
  destruct (field_mapper_whitelist e_nov14 "1001" [row_stale_active])
    as (_ & _ & Hextra & _ & Hnone & Hcreate).
  assert (Hfoo : forall keys, existsb (String.eqb "foo") keys = false ->
                 forall k, In k keys -> get body_foo k = JUndef).
  { intros keys Hk k Hin. unfold body_foo. cbn [get].
    destruct (String.eqb_spec k "foo") as [-> | _]; [|reflexivity].
    exfalso. exact (not_in_keys "foo" keys Hk Hin). }
  split; [|split].
  - rewrite (Hnone body_foo (Hfoo update_keys eq_refl)). reflexivity.
  - apply Hextra. exact (not_in_keys "bar" create_keys eq_refl).
  - exact (Hcreate body_foo (Hfoo create_keys eq_refl)).
Defined.

(** ** C9: the renewals-due report *)

(** The entry the report should list for the row [u] whose expiry is the
    instant [t]: its fields, the expiry moved to local midnight,
    [daysLeft = max(0, ceil((expiry - today) / 1 day))] and "active". *)
Definition due_entry (e : env) (u : row) (t : Z) : row :=
  set (set (set (rowToUser u) "expiry_date" (JDate (Some (start_of_local_day e t))))
           "daysLeft"
           (JNum (Z.max 0 (ceil_div (start_of_local_day e t - start_of_local_day e (now_ms e))
                                    ms_per_day))))
      "plan_status" (JStr "active").

Lemma ceil_div_days (a : Z) : ceil_div (a * ms_per_day) ms_per_day = a.
Proof.
  unfold ceil_div. rewrite <- Z.mul_opp_l, Z.div_mul by (unfold ms_per_day; lia). lia.
Qed.

Lemma start_of_day_diff (e : env) (t s : Z) :
  start_of_local_day e t - start_of_local_day e s = (local_day e t - local_day e s) * ms_per_day.
Proof. unfold start_of_local_day, ms_per_day. lia. Qed.

Lemma get_annotated (r : row) (a b c : jsval) :
  get (set (set (set r "expiry_date" a) "daysLeft" b) "plan_status" c) "expiry_date" = a.
Proof. rewrite !get_set. reflexivity. Qed.

Lemma some_eq {A : Type} (a b : A) : Some a = Some b -> b = a.
Proof. congruence. Qed.

Lemma annotate_in_window (e : env) (h : Z) (u x : row) :
  (annotate_renewal e (Some (start_of_local_day e (now_ms e))) u = Some x /\
   in_window (Some (start_of_local_day e (now_ms e)))
             (Some (start_of_local_day e (now_ms e) + h * ms_per_day)) x = true)
  <-> exists t, truthy (get u "expiry_date") = true /\
        js_new_date e (get u "expiry_date") = Some t /\
        valid_time (start_of_local_day e t) /\
        local_day e (now_ms e) <= local_day e t <= local_day e (now_ms e) + h /\
        x = due_entry e u t.
Proof.
  unfold annotate_renewal.
  destruct (truthy (get u "expiry_date")) eqn:Htr; cbn [negb].
  2: { split; [intros [H _]; discriminate H | intros (t & H & _); discriminate H]. }
  destruct (js_new_date e (get u "expiry_date")) as [t|] eqn:Hd.
  2: { split; [intros [H Hw]; apply some_eq in H; subst x; unfold in_window in Hw;
               rewrite get_annotated in Hw; discriminate Hw
              | intros (t & _ & H & _); discriminate H]. }
  cbn [set_hours_zero]. fold (start_of_local_day e t).
  destruct (Z.abs (start_of_local_day e t) <=? 8640000000000000) eqn:Hv.
  2: { assert (Hc : time_clip (start_of_local_day e t) = None) by (unfold time_clip; now rewrite Hv).
       rewrite Hc.
       split; [intros [H Hw]; apply some_eq in H; subst x; unfold in_window in Hw;
               rewrite get_annotated in Hw; discriminate Hw
              | intros (t' & _ & H & Hvt & _); injection H as <-;
                apply Z.leb_le in Hvt; congruence]. }
  assert (Hc : time_clip (start_of_local_day e t) = Some (start_of_local_day e t))
    by (unfold time_clip; now rewrite Hv).
  rewrite Hc. apply Z.leb_le in Hv. cbv beta iota.
  rewrite start_of_day_diff, ceil_div_days.
  assert (D := start_of_day_diff e t (now_ms e)).
  assert (Hrow : 0 <= local_day e t - local_day e (now_ms e) ->
    set (set (set (rowToUser u) "expiry_date" (JDate (Some (start_of_local_day e t))))
      "daysLeft"
      (JNum (if 0 <=? local_day e t - local_day e (now_ms e)
             then local_day e t - local_day e (now_ms e) else 0)))
      "plan_status"
      (JStr (if 0 <=? local_day e t - local_day e (now_ms e)
             then "active"%string else "expired"%string)) = due_entry e u t).
  { intros H0. unfold due_entry. rewrite D, ceil_div_days.
    apply Z.leb_le in H0 as H1. rewrite H1, Z.max_r by exact H0. reflexivity. }
  split.
  - intros [H Hw]. apply some_eq in H. subst x. unfold in_window in Hw.
    rewrite get_annotated in Hw. apply andb_prop in Hw as [H1 H2].
    apply Z.leb_le in H1, H2.
    assert (Hr : local_day e (now_ms e) <= local_day e t <= local_day e (now_ms e) + h).
    { clear Hrow. unfold ms_per_day in *. nia. }
    exists t. split; [reflexivity|]. split; [reflexivity|]. split; [exact Hv|].
    split; [exact Hr|]. apply Hrow. lia.
  - intros (t' & _ & Ht & _ & Hr & ->). injection Ht as <-.
    split; [apply (f_equal Some); apply Hrow; lia|].
    unfold in_window, due_entry. rewrite get_annotated.
    apply andb_true_intro; split; apply Z.leb_le; clear Hrow; unfold ms_per_day in *; nia.
Qed.

(** C9.  With a horizon of [h] days (10 when the query gives none), when the
    start of today and the end of the window are valid times, the report lists
    exactly the non-deleted rows of the table whose expiry date falls on a
    local calendar day between today and today + [h] inclusive; each is
    listed with its expiry moved to local midnight,
    [daysLeft = max(0, ceil((expiry - today) / 1 day))] and status "active". *)
Theorem renewals_due_window (e : env) (days_q : option string) (h : Z) (store : list row)
    (x : row)
    (Hdays : renewal_days days_q = Some h)
    (Htoday : valid_time (start_of_local_day e (now_ms e)))
    (Hlimit : valid_time (start_of_local_day e (now_ms e) + h * ms_per_day)) :
  In x (renewals_due e days_q store) <->
  exists u t, In u store /\ not_deleted u = true /\ expiry_not_null u = true /\
    truthy (get u "expiry_date") = true /\ js_new_date e (get u "expiry_date") = Some t /\
    valid_time (start_of_local_day e t) /\
    local_day e (now_ms e) <= local_day e t <= local_day e (now_ms e) + h /\
    x = due_entry e u t.
Proof.
  unfold renewals_due. cbv zeta. rewrite Hdays, (today_value e Htoday).
  cbn [add_days]. rewrite (time_clip_valid _ Hlimit).
  rewrite filter_In, in_flat_map.
  split.
  - intros [(u & Hu & Hx) Hw]. apply filter_In in Hu as [Hu Hq].
    apply andb_prop in Hq as [Hnd Hnn].
    destruct (annotate_renewal _ _ u) as [y|] eqn:Ha; [|contradiction].
    destruct Hx as [<- | []].
    destruct (proj1 (annotate_in_window e h u y) (conj Ha Hw))
      as (t & Htr & Hd & Hv & Hr & Hx).
    exists u, t.
    exact (conj Hu (conj Hnd (conj Hnn (conj Htr (conj Hd (conj Hv (conj Hr Hx))))))).
  - intros (u & t & Hu & Hnd & Hnn & Htr & Hd & Hv & Hr & Hx).
    destruct (proj2 (annotate_in_window e h u x)
                (ex_intro _ t (conj Htr (conj Hd (conj Hv (conj Hr Hx))))))
      as [Ha Hw].
    split; [|exact Hw]. exists u. split.
    + apply filter_In. split; [exact Hu|]. now rewrite Hnd, Hnn.
    + rewrite Ha. now left.
Qed.

Definition row_due5 : row :=
  [("id", JNum 2); ("regno", JNum 1002); ("is_deleted", JBool false);
   ("expiry_date", JDate (Some (1699963200000 + 5 * ms_per_day)));
   ("plan_status", JStr "active")]%string.

(** With the default horizon, a row expiring in five days is listed with
    [daysLeft = 5] and "active"; the row that expired yesterday is not. *)
Lemma renewals_due_window_witness :
  In (due_entry e_nov14 row_due5 (1699963200000 + 5 * ms_per_day))
     (renewals_due e_nov14 None [row_due5; row_stale_active]) /\
  renewals_due e_nov14 None [row_due5; row_stale_active] =
    [due_entry e_nov14 row_due5 (1699963200000 + 5 * ms_per_day)] /\
  get (due_entry e_nov14 row_due5 (1699963200000 + 5 * ms_per_day)) "daysLeft" = JNum 5 /\
  get (due_entry e_nov14 row_due5 (1699963200000 + 5 * ms_per_day)) "plan_status" =
    JStr "active".
Proof.
  split.
  - apply (proj2 (renewals_due_window e_nov14 None 10 [row_due5; row_stale_active]
                    (due_entry e_nov14 row_due5 (1699963200000 + 5 * ms_per_day))
                    eq_refl
                    ltac:(apply Z.leb_le; vm_compute; reflexivity)
                    ltac:(apply Z.leb_le; vm_compute; reflexivity))).
    exists row_due5, (1699963200000 + 5 * ms_per_day).
    split; [now left|].
    split; [reflexivity|]. split; [reflexivity|]. split; [reflexivity|].
    split; [reflexivity|].
    split; [apply Z.leb_le; vm_compute; reflexivity|].
    split; [vm_compute; split; discriminate|reflexivity].
  - split; [vm_compute; reflexivity|]. split; vm_compute; reflexivity.
Defined.

(** * Further properties of the API *)

(** ** The API-key middleware *)

Lemma API_KEY_nonempty (o : option string) : API_KEY o <> ""%string.
Proof.
  destruct o as [k|]; simpl.
  - destruct (String.eqb_spec k ""); [intros H; discriminate H | assumption].
  - intros H; discriminate H.
Qed.

(** A request other than a preflight passes the API-key middleware exactly
    when its [x-api-key] header equals the configured key; a preflight
    always passes.  The configured key is "devkey" when [API_KEY] is unset or
    empty, so it is never empty and a request without the header never
    passes. *)
Theorem api_key_check_spec (env_api_key : option string) (method : string)
    (header : option string) :
  (api_key_check (API_KEY env_api_key) method header = true <->
   method = "OPTIONS"%string \/ header = Some (API_KEY env_api_key)) /\
  (env_api_key = None \/ env_api_key = Some ""%string -> API_KEY env_api_key = "devkey"%string).
Proof.
  split.
  - unfold api_key_check. destruct (String.eqb_spec method "OPTIONS") as [-> | Hm].
    + split; [intros _; left; reflexivity | reflexivity].
    + destruct header as [k|].
      * destruct (String.eqb_spec k "") as [-> | Hk].
        -- split; [intros H; discriminate H|].
           intros [H | H]; [contradiction|].
           injection H as H. exfalso. exact (API_KEY_nonempty _ (eq_sym H)).
        -- destruct (String.eqb_spec k (API_KEY env_api_key)) as [-> | Hne].
           ++ split; [intros _; right; reflexivity | reflexivity].
           ++ split; [intros H; discriminate H|].
              intros [H | H]; [contradiction | injection H as H; contradiction].
      * split; [intros H; discriminate H|].
        intros [H | H]; [contradiction | discriminate H].
  - intros [-> | ->]; reflexivity.
Qed.

(** ** [rowToUser] *)

Lemma get_map_fields (f : string -> jsval) (ks : list string) (k : string) :
  get (map (fun k' => (k', f k')) ks) k = if existsb (String.eqb k) ks then f k else JUndef.
Proof.
  induction ks as [| k' ks IH]; simpl; [reflexivity|].
  destruct (String.eqb k k') eqn:E; simpl; [apply String.eqb_eq in E; now subst | exact IH].
Qed.

(** [rowToUser] keeps exactly the properties of its list: any other column
    of the row is dropped, and mapping a mapped object again changes
    nothing. *)
Theorem rowToUser_fields (r : row) (k : string) :
  get (rowToUser r) k = (if existsb (String.eqb k) user_fields then get r k else JUndef) /\
  rowToUser (rowToUser r) = rowToUser r.
Proof.
  split; [apply get_map_fields|].
  unfold rowToUser at 1 3. apply map_ext_in. intros k' Hk'.
  f_equal. unfold rowToUser. rewrite get_map_fields.
  replace (existsb (String.eqb k') user_fields) with true; [reflexivity|].
  symmetry. apply existsb_exists. exists k'. split; [exact Hk' | apply String.eqb_refl].
Qed.

(** ** The [own_house] column and the [ownHouse] property *)

Lemma get_set_other (r : row) (k k' : string) (v : jsval) :
  k' <> k -> get (set r k v) k' = get r k'.
Proof. intros H. rewrite get_set. destruct (String.eqb_spec k' k); [congruence | reflexivity]. Qed.



(** ** Path parameters *)

Lemma digit_not_space (c : ascii) : is_digit c = true -> is_space c = false.
Proof.
  unfold is_digit, is_space. intros H. apply andb_prop in H as [H1 H2].
  apply Z.leb_le in H1, H2.
  destruct (Ascii.eqb_spec c " ") as [-> | _]; [exfalso; apply H1; reflexivity|].
  simpl. destruct (9 <=? char_code c) eqn:E1; [|reflexivity].
  apply Z.leb_gt. lia.
Qed.

Lemma digit_not_sign (c : ascii) :
  is_digit c = true -> Ascii.eqb c "-"%char = false /\ Ascii.eqb c "+"%char = false.
Proof.
  intros H. split.
  - destruct (Ascii.eqb_spec c "-") as [-> | _]; [discriminate H | reflexivity].
  - destruct (Ascii.eqb_spec c "+") as [-> | _]; [discriminate H | reflexivity].
Qed.

Lemma span_digits (ds rest : list ascii) :
  forallb is_digit ds = true ->
  (match rest with c :: _ => is_digit c = false | [] => True end) ->
  span is_digit (ds ++ rest) = (ds, rest).
Proof.
  intros Hd Hr. induction ds as [| c ds IH]; simpl.
  - destruct rest as [| c rest]; [reflexivity|]. simpl. now rewrite Hr.
  - simpl in Hd. apply andb_prop in Hd as [Hc Hd]. rewrite Hc, (IH Hd). reflexivity.
Qed.

Lemma parseInt_js_digits_prefix (ds rest : list ascii) :
  ds <> [] -> forallb is_digit ds = true ->
  (match rest with c :: _ => is_digit c = false | [] => True end) ->
  parseInt_js (Some (string_of_list_ascii (ds ++ rest))) = Some (digits_value 0 ds).
Proof.
  intros Hne Hd Hr. unfold parseInt_js. rewrite list_ascii_of_string_of_list_ascii.
  destruct ds as [| c ds']; [contradiction|].
  pose proof Hd as Hd'. simpl in Hd'. apply andb_prop in Hd' as [Hc _].
  cbn [app drop_while]. rewrite (digit_not_space c Hc).
  destruct (digit_not_sign c Hc) as [Hm Hp]. rewrite Hm, Hp.
  rewrite (span_digits (c :: ds') rest Hd Hr : span is_digit (c :: ds' ++ rest) = (c :: ds', rest)).
  unfold all_digits. rewrite Hd. f_equal. lia.
Qed.

(** The handlers addressed by [:regno] read it with [parseInt(_, 10)]: a
    segment made of digits followed by text that does not start with a digit
    ("1001abc") addresses the same record as its digits alone. *)
Theorem path_regno_trailing_text (e : env) (ds rest : list ascii) (body : row)
    (store : list row) :
  ds <> [] -> forallb is_digit ds = true ->
  (match rest with c :: _ => is_digit c = false | [] => True end) ->
  check_regno (string_of_list_ascii (ds ++ rest)) store =
    check_regno (string_of_list_ascii ds) store /\
  update_user e (string_of_list_ascii (ds ++ rest)) body store =
    update_user e (string_of_list_ascii ds) body store /\
  delete_user e (string_of_list_ascii (ds ++ rest)) body store =
    delete_user e (string_of_list_ascii ds) body store.
Proof.
  intros Hne Hd Hr.
  pose proof (parseInt_js_digits_prefix ds rest Hne Hd Hr) as H1.
  pose proof (parseInt_js_digits_prefix ds [] Hne Hd I) as H2. rewrite app_nil_r in H2.
  unfold check_regno, update_user, delete_user. rewrite H1, H2. auto.
Qed.

Lemma path_regno_trailing_text_witness :
  check_regno "1001abc" [row_stale_active] = check_regno "1001" [row_stale_active] /\
  update_user e_nov14 "1001abc" body_foo [row_stale_active] =
    update_user e_nov14 "1001" body_foo [row_stale_active] /\
  delete_user e_nov14 "1001abc" body_foo [row_stale_active] =
    delete_user e_nov14 "1001" body_foo [row_stale_active].
Proof.
  exact (path_regno_trailing_text e_nov14 ["1"; "0"; "0"; "1"]%char ["a"; "b"; "c"]%char
           body_foo [row_stale_active]
           ltac:(intros H; discriminate H) eq_refl eq_refl).
Defined.

(** ** The soft-delete handler *)

(** What the [UPDATE] of the delete handler does to one row. *)
Definition mark_deleted (e : env) (body : row) (n : Z) (r : row) : row :=
  if column_eq r "regno" n
  then set (set (set r "is_deleted" (JBool true)) "updated_at" (JDate (Some (now_ms e))))
           "deleted_by" (pg_param (get body "deleted_by"))
  else r.

Lemma delete_user_cases (e : env) (regno_param : string) (body : row) (store : list row)
    (n : Z) :
  parseInt_js (Some regno_param) = Some n ->
  delete_user e regno_param body store =
    if existsb (fun r => column_eq r "regno" n) store
    then DeleteOk (map (mark_deleted e body n) store) else DeleteError 404.
Proof. intros Hn. unfold delete_user. rewrite Hn. reflexivity. Qed.

Lemma column_eq_mark_deleted (e : env) (body : row) (n m : Z) (r : row) :
  column_eq (mark_deleted e body n r) "regno" m = column_eq r "regno" m.
Proof.
  unfold mark_deleted. destruct (column_eq r "regno" n); [|reflexivity].
  unfold column_eq. rewrite !get_set_other by (intros H; discriminate H). reflexivity.
Qed.

Lemma mark_deleted_hit (e : env) (body : row) (n : Z) (r : row) :
  column_eq r "regno" n = true ->
  get (mark_deleted e body n r) "is_deleted" = JBool true /\
  get (mark_deleted e body n r) "deleted_by" = pg_param (get body "deleted_by").
Proof.
  intros H. unfold mark_deleted. rewrite H. split.
  - rewrite !get_set_other by (intros H'; discriminate H'). rewrite get_set. reflexivity.
  - rewrite get_set. reflexivity.
Qed.

Lemma find_map_mark_deleted (e : env) (body : row) (n : Z) (store : list row) :
  find (fun r => column_eq r "regno" n) (map (mark_deleted e body n) store) =
  option_map (mark_deleted e body n) (find (fun r => column_eq r "regno" n) store).
Proof.
  induction store as [| r store IH]; [reflexivity|]. simpl.
  rewrite column_eq_mark_deleted. destruct (column_eq r "regno" n); [reflexivity | exact IH].
Qed.

Lemma find_none_existsb {A} (f : A -> bool) (l : list A) :
  find f l = None -> existsb f l = false.
Proof.
  induction l as [| x l IH]; simpl; [reflexivity|].
  destruct (f x); [discriminate | exact IH].
Qed.

Lemma existsb_map_mark_deleted (e : env) (body : row) (n m : Z) (store : list row) :
  existsb (fun r => column_eq r "regno" m) (map (mark_deleted e body n) store) =
  existsb (fun r => column_eq r "regno" m) store.
Proof.
  induction store as [| r store IH]; [reflexivity|]. simpl.
  rewrite column_eq_mark_deleted, IH. reflexivity.
Qed.

Lemma filter_mark_deleted (e : env) (body : row) (n : Z) (filters : row -> bool)
    (store : list row) :
  filter (fun r => not_deleted r && filters r) (map (mark_deleted e body n) store) =
  filter (fun r => not_deleted r && filters r)
         (filter (fun r => negb (column_eq r "regno" n)) store).
Proof.
  induction store as [| r store IH]; [reflexivity|]. simpl.
  destruct (column_eq r "regno" n) eqn:Hr; simpl.
  - destruct (mark_deleted_hit e body n r Hr) as [Hd _].
    unfold not_deleted at 1. rewrite Hd. exact IH.
  - replace (mark_deleted e body n r) with r by (unfold mark_deleted; now rewrite Hr).
    destruct (not_deleted r && filters r); [f_equal|]; exact IH.
Qed.

(** A successful delete marks every row holding the regno as deleted and
    records the caller's [deleted_by] (NULL when absent).  Afterwards an
    update addressed to the regno answers 404, the existence check still
    answers [exists = true], and the list is the list of the table without
    those rows. *)
Theorem delete_user_soft_deletes (e : env) (regno_param : string) (body : row)
    (store store' : list row) (n : Z) :
  parseInt_js (Some regno_param) = Some n ->
  delete_user e regno_param body store = DeleteOk store' ->
  (forall r', In r' store' -> column_eq r' "regno" n = true ->
     soft_deleted r' = true /\ get r' "deleted_by" = pg_param (get body "deleted_by")) /\
  (forall e' body', update_user e' regno_param body' store' = UpdateError 404) /\
  check_regno regno_param store' = CheckExists true /\
  (forall e' filters page limit w,
     list_users e' filters page limit store' w =
     list_users e' filters page limit (filter (fun r => negb (column_eq r "regno" n)) store) w).
Proof.
  intros Hn Hdel. rewrite (delete_user_cases e regno_param body store n Hn) in Hdel.
  destruct (existsb _ store) eqn:Hex; [|discriminate Hdel].
  injection Hdel as <-.
  split; [|split; [|split]].
  - intros r' Hin Hr'. apply in_map_iff in Hin as (r & <- & _).
    rewrite column_eq_mark_deleted in Hr'.
    destruct (mark_deleted_hit e body n r Hr') as [Hd Hb].
    unfold soft_deleted. rewrite Hd. auto.
  - intros e' body'. unfold update_user. rewrite Hn. cbv zeta.
    rewrite find_map_mark_deleted.
    destruct (find (fun r => column_eq r "regno" n) store) as [r0|] eqn:Hf.
    + apply find_some_prop in Hf as [_ Hr0]. cbn [option_map].
      rewrite (proj1 (mark_deleted_hit e body n r0 Hr0)). reflexivity.
    + rewrite (find_none_existsb _ _ Hf) in Hex. discriminate Hex.
  - unfold check_regno. rewrite Hn. f_equal.
    rewrite existsb_map_mark_deleted. exact Hex.
  - intros e' filters page limit w. unfold list_users.
    rewrite filter_mark_deleted. reflexivity.
Qed.

Lemma delete_user_soft_deletes_witness :
  exists store',
    delete_user e_nov14 "1001" [("deleted_by", JStr "admin")]%string
      [row_stale_active; row_due5] = DeleteOk store' /\
    update_user e_nov14 "1001" body_foo store' = UpdateError 404 /\
    check_regno "1001" store' = CheckExists true.
Proof.
  eexists. split; [reflexivity|].
  destruct (delete_user_soft_deletes e_nov14 "1001" [("deleted_by", JStr "admin")]%string
              [row_stale_active; row_due5] _ 1001 eq_refl eq_refl) as (_ & Hu & Hc & _).
  split; [apply Hu | exact Hc].
Defined.

(** The delete statement does not test [is_deleted]: it answers 404 exactly
    when no row holds the regno, deleted or not, and a record that is
    already soft-deleted is deleted again, its [deleted_by] overwritten. *)
Theorem delete_user_ignores_deleted_flag (e : env) (regno_param : string) (body : row)
    (store : list row) (n : Z) :
  parseInt_js (Some regno_param) = Some n ->
  (delete_user e regno_param body store = DeleteError 404 <->
   forall r, In r store -> column_eq r "regno" n = false) /\
  (forall r, In r store -> column_eq r "regno" n = true -> soft_deleted r = true ->
     exists store', delete_user e regno_param body store = DeleteOk store' /\
       forall r', In r' store' -> column_eq r' "regno" n = true ->
         get r' "deleted_by" = pg_param (get body "deleted_by")).
Proof.
  intros Hn. rewrite (delete_user_cases e regno_param body store n Hn). split.
  - destruct (existsb _ store) eqn:Hex.
    + split; [discriminate|]. intros H.
      apply existsb_exists in Hex as (r & Hin & Hr). rewrite (H r Hin) in Hr. discriminate Hr.
    + split; [|reflexivity]. intros _ r Hin.
      destruct (column_eq r "regno" n) eqn:Hr; [|reflexivity].
      rewrite (existsb_true _ _ r Hin Hr) in Hex. discriminate Hex.
  - intros r Hin Hr _. rewrite (existsb_true _ _ r Hin Hr).
    eexists. split; [reflexivity|].
    intros r' Hin' Hr'. apply in_map_iff in Hin' as (r0 & <- & _).
    rewrite column_eq_mark_deleted in Hr'. exact (proj2 (mark_deleted_hit e body n r0 Hr')).
Qed.

Lemma delete_user_ignores_deleted_flag_witness :
  exists store',
    delete_user e_nov14 "7" [("deleted_by", JStr "second")]%string [row_deleted_7] = DeleteOk store' /\
    get (hd [] store') "deleted_by" = JStr "second".
Proof.
  destruct (proj2 (delete_user_ignores_deleted_flag e_nov14 "7" [("deleted_by", JStr "second")]%string
                     [row_deleted_7] 7 eq_refl) row_deleted_7 (or_introl eq_refl) eq_refl eq_refl)
    as (store' & Hd & Hb).
  exists store'. split; [exact Hd|].
  pose proof Hd as Hs. vm_compute in Hs. injection Hs as <-.
  apply Hb; [now left | reflexivity].
Defined.

(** ** Pagination of the list *)

Lemma js_ret_eq {A} (a b : A) : JSRet a = JSRet b -> a = b.
Proof. intros H. change a with (match JSRet a with JSRet x => x | JSThrow => a end). rewrite H. reflexivity. Qed.

Lemma post_process_ok (e : env) (w : row -> bool) (rows users : list row) :
  post_process e w rows = JSRet users ->
  Forall2 (fun r u => forall k, k <> "plan_status"%string -> get u k = get (rowToUser r) k)
    rows users.
Proof.
  revert users. induction rows as [| r rows IH]; intros users H; cbn [post_process] in H.
  - injection H as <-. constructor.
  - destruct (fst (updateplan_statusInDB e (w r) r)) as [cur|]; [|discriminate H].
    destruct (post_process e w rows) as [us|] eqn:Hp; [|discriminate H].
    apply js_ret_eq in H. subst users. constructor; [|exact (IH us eq_refl)].
    intros k Hk. cbv zeta. rewrite get_set. destruct (String.eqb_spec k "plan_status"); [contradiction|reflexivity].
Qed.

Lemma ceil_div_pages (total l : Z) :
  0 <= total -> 1 <= l ->
  0 <= ceil_div total l /\ l * (ceil_div total l - 1) < total <= l * ceil_div total l /\
  (total = 0 -> ceil_div total l = 0).
Proof.
  intros Ht Hl. unfold ceil_div.
  pose proof (Z.div_mod (- total) l ltac:(lia)) as Hd.
  pose proof (Z.mod_pos_bound (- total) l ltac:(lia)) as Hm.
  set (q := - total / l) in *. set (m := (- total) mod l) in *.
  split; [|split].
  - nia.
  - nia.
  - intros ->. subst q. reflexivity.
Qed.

Lemma length_page {A} (n m : nat) (l : list A) :
  length (firstn n (skipn m l)) = Nat.min n (length l - m).
Proof. rewrite length_firstn, length_skipn. reflexivity. Qed.

Lemma list_users_unfold (e : env) (filters : row -> bool) (page limit : option string)
    (store : list row) (w : row -> bool) :
  list_users e filters page limit store w =
  let matching := filter (fun r => not_deleted r && filters r) store in
  let total := Z.of_nat (length matching) in
  let rows := firstn (Z.to_nat (per_page_of limit))
                (skipn (Z.to_nat ((page_int_of page - 1) * per_page_of limit)) matching) in
  match post_process e w rows with
  | JSRet users =>
      ListOk users total (page_int_of page) (per_page_of limit) (ceil_div total (per_page_of limit))
  | JSThrow => ListError 500
  end.
Proof. reflexivity. Qed.

Theorem list_users_pagination (e : env) (filters : row -> bool) (page limit : option string)
    (store : list row) (w : row -> bool) (users : list row) (total p l tp : Z) :
  list_users e filters page limit store w = ListOk users total p l tp ->
  let matching := filter (fun r => not_deleted r && filters r) store in
  1 <= p /\ 1 <= l <= 1000 /\
  total = Z.of_nat (length matching) /\
  Z.of_nat (length users) = Z.max 0 (Z.min l (total - (p - 1) * l)) /\
  Forall2 (fun r u => forall k, k <> "plan_status"%string -> get u k = get (rowToUser r) k)
    (firstn (Z.to_nat l) (skipn (Z.to_nat ((p - 1) * l)) matching)) users /\
  l * (tp - 1) < total <= l * tp /\ (total = 0 -> tp = 0).
Proof.
  rewrite list_users_unfold. cbv zeta.
  set (matching := filter (fun r => not_deleted r && filters r) store).
  assert (Hp : 1 <= page_int_of page) by (unfold page_int_of; lia).
  assert (Hl : 1 <= per_page_of limit <= 1000) by (unfold per_page_of; lia).
  set (p0 := page_int_of page) in *. set (l0 := per_page_of limit) in *.
  clearbody p0 l0.
  destruct (post_process e w _) as [us|] eqn:Hpp; [|discriminate].
  intros H. injection H as <- <- <- <- <-.
  pose proof (post_process_ok e w _ _ Hpp) as Hf.
  pose proof (Forall2_length Hf) as Hlen.
  assert (Ho : 0 <= (p0 - 1) * l0) by nia.
  destruct (ceil_div_pages (Z.of_nat (length matching)) l0 ltac:(lia) ltac:(lia)) as (_ & Hc & Hz).
  split; [exact Hp|]. split; [exact Hl|]. split; [reflexivity|].
  split; [|split; [exact Hf | split; [exact Hc | exact Hz]]].
  rewrite <- Hlen, length_page.
  set (o := (p0 - 1) * l0) in *. clearbody o. lia.
Qed.

Lemma list_users_pagination_witness :
  exists users,
    list_users e_nov14 (fun _ => true) (Some "2"%string) (Some "1"%string)
      [row_stale_active; row_due5] (fun _ => true) = ListOk users 2 2 1 2 /\
    Z.of_nat (length users) = 1.
Proof.
  destruct (list_users e_nov14 (fun _ => true) (Some "2"%string) (Some "1"%string)
              [row_stale_active; row_due5] (fun _ => true)) as [s | users total p l tp] eqn:H.
  - vm_compute in H. discriminate H.
  - pose proof H as H'. vm_compute in H'. injection H' as _ <- <- <- <-.
    exists users. split; [reflexivity|].
    destruct (list_users_pagination e_nov14 (fun _ => true) (Some "2"%string) (Some "1"%string)
                [row_stale_active; row_due5] (fun _ => true) users 2 2 1 2 H)
      as (_ & _ & _ & Hlen & _).
    rewrite Hlen. reflexivity.
Defined.

(** ** The list query builder *)

(** [idx] is always one past the number of parameters pushed so far. *)
Definition aligned (st : where_state) : Prop :=
  ws_idx st = Z.of_nat (length (ws_params st)) + 1.

(** The filter list starts with [is_deleted = false]. *)
Definition starts_not_deleted (st : where_state) : Prop :=
  exists rest, ws_filters st = "is_deleted = false"%string :: rest.

Lemma add_search_aligned (q : string) (st : where_state) :
  aligned st -> aligned (add_search q st).
Proof.
  unfold aligned, add_search. intros H.
  destruct (String.eqb q ""); [exact H|].
  destruct (parseInt_js (Some q)); cbn [ws_idx ws_params];
    rewrite !length_app; simpl; lia.
Qed.

Lemma add_equal_aligned (c : string) (v : option string) (st : where_state) :
  aligned st -> aligned (add_equal c v st).
Proof.
  unfold aligned, add_equal. intros H. destruct v as [s|]; [|exact H].
  destruct (String.eqb s ""); [exact H|]. cbn [ws_idx ws_params].
  rewrite length_app. simpl. lia.
Qed.

Lemma add_location_aligned (v : option string) (st : where_state) :
  aligned st -> aligned (add_location v st).
Proof.
  unfold aligned, add_location. intros H. destruct v as [s|]; [|exact H].
  destruct (String.eqb s ""); [exact H|]. cbn [ws_idx ws_params].
  rewrite length_app. simpl. lia.
Qed.

Lemma add_dob_aligned (v : option string) (st : where_state) :
  aligned st -> aligned (add_dob v st).
Proof.
  unfold aligned, add_dob. intros H. destruct v as [s|]; [|exact H].
  destruct (String.eqb s ""); [exact H|]. cbn [ws_idx ws_params].
  rewrite length_app. simpl. lia.
Qed.

Lemma add_multi_aligned (c : string) (v : option string) (st : where_state) :
  aligned st -> aligned (add_multi c v st).
Proof.
  unfold aligned, add_multi. intros H. destruct v as [s|]; [|exact H].
  destruct (String.eqb s ""); [exact H|]. cbv zeta.
  destruct (multi_values s) as [| x xs]; [exact H|]. cbn [ws_idx ws_params].
  rewrite length_app, length_map. lia.
Qed.

Lemma starts_not_deleted_app (st : where_state) (fs : list string) :
  starts_not_deleted st -> exists rest, ws_filters st ++ fs = "is_deleted = false"%string :: rest.
Proof. intros [rest H]. rewrite H. eexists. reflexivity. Qed.

Lemma add_search_starts (q : string) (st : where_state) :
  starts_not_deleted st -> starts_not_deleted (add_search q st).
Proof.
  unfold add_search. intros H. destruct (String.eqb q ""); [exact H|].
  destruct (parseInt_js (Some q)); apply starts_not_deleted_app; exact H.
Qed.

Lemma add_equal_starts (c : string) (v : option string) (st : where_state) :
  starts_not_deleted st -> starts_not_deleted (add_equal c v st).
Proof.
  unfold add_equal. intros H. destruct v as [s|]; [|exact H].
  destruct (String.eqb s ""); [exact H|]. apply starts_not_deleted_app; exact H.
Qed.

Lemma add_location_starts (v : option string) (st : where_state) :
  starts_not_deleted st -> starts_not_deleted (add_location v st).
Proof.
  unfold add_location. intros H. destruct v as [s|]; [|exact H].
  destruct (String.eqb s ""); [exact H|]. apply starts_not_deleted_app; exact H.
Qed.

Lemma add_dob_starts (v : option string) (st : where_state) :
  starts_not_deleted st -> starts_not_deleted (add_dob v st).
Proof.
  unfold add_dob. intros H. destruct v as [s|]; [|exact H].
  destruct (String.eqb s ""); [exact H|]. apply starts_not_deleted_app; exact H.
Qed.

Lemma add_multi_starts (c : string) (v : option string) (st : where_state) :
  starts_not_deleted st -> starts_not_deleted (add_multi c v st).
Proof.
  unfold add_multi. intros H. destruct v as [s|]; [|exact H].
  destruct (String.eqb s ""); [exact H|]. cbv zeta.
  destruct (multi_values s); [exact H|]. apply starts_not_deleted_app; exact H.
Qed.

Lemma build_where_state_inv (qp : query) :
  aligned (build_where_state qp) /\ starts_not_deleted (build_where_state qp).
Proof.
  unfold build_where_state. cbv zeta. split.
  - repeat first [ apply add_dob_aligned | apply add_multi_aligned | apply add_location_aligned
                 | apply add_equal_aligned | apply add_search_aligned ].
    reflexivity.
  - repeat first [ apply add_dob_starts | apply add_multi_starts | apply add_location_starts
                 | apply add_equal_starts | apply add_search_starts ].
    eexists. reflexivity.
Qed.

Lemma join_cons (sep x : string) (l : list string) :
  join sep (x :: l) = match l with [] => x | _ => (x ++ sep ++ join sep l)%string end.
Proof. destruct l; reflexivity. Qed.

(** The list query: the [WHERE] always begins with [is_deleted = false]; the
    [LIMIT] placeholder is one past the filter parameters and the [OFFSET]
    placeholder the next one, so that they name the [perPage] and [offset]
    values appended to the parameters. *)
Theorem build_list_query_placeholders (qp : query) :
  let lq := build_list_query qp in
  (exists rest, lq_where lq = ("WHERE is_deleted = false" ++ rest)%string /\
     (rest = ""%string \/ exists more, rest = (" AND " ++ more)%string)) /\
  lq_limit_ph lq = Z.of_nat (length (lq_params lq)) + 1 /\
  lq_offset_ph lq = lq_limit_ph lq + 1 /\
  Z.of_nat (length (lq_final_params lq)) = lq_offset_ph lq /\
  nth_error (lq_final_params lq) (Z.to_nat (lq_limit_ph lq - 1)) =
    Some (JNum (per_page_of (assoc_str qp "limit"%string))) /\
  nth_error (lq_final_params lq) (Z.to_nat (lq_offset_ph lq - 1)) =
    Some (JNum ((page_int_of (assoc_str qp "page"%string) - 1) * per_page_of (assoc_str qp "limit"%string))).
Proof.
  destruct (build_where_state_inv qp) as [Ha [rest Hs]].
  unfold build_list_query. cbv zeta. cbn [lq_where lq_params lq_limit_ph lq_offset_ph lq_final_params].
  unfold aligned in Ha.
  set (st := build_where_state qp) in *. clearbody st.
  destruct st as [fs ps idx]. cbn [ws_filters ws_params ws_idx] in *. subst fs idx.
  split; [|split; [reflexivity|split; [reflexivity|split; [|split]]]].
  - rewrite join_cons. destruct rest as [| f fs].
    + exists ""%string. split; [|left]; reflexivity.
    + exists (" AND " ++ join " AND " (f :: fs))%string. split; [reflexivity|right; eexists; reflexivity].
  - rewrite length_app. simpl. lia.
  - replace (Z.to_nat (Z.of_nat (length ps) + 1 - 1)) with (length ps + 0)%nat by lia.
    rewrite nth_error_app2 by lia. replace (length ps + 0 - length ps)%nat with 0%nat by lia. reflexivity.
  - replace (Z.to_nat (Z.of_nat (length ps) + 1 + 1 - 1)) with (length ps + 1)%nat by lia.
    rewrite nth_error_app2 by lia. replace (length ps + 1 - length ps)%nat with 1%nat by lia. reflexivity.
Qed.

(** The shape of a query string, as far as the statement text can see it. *)
Definition q_kind (q : string) : nat :=
  if String.eqb q ""%string then 0%nat
  else match parseInt_js (Some q) with Some _ => 2%nat | None => 1%nat end.

Definition multi_count (v : option string) : nat :=
  match v with
  | Some s => if String.eqb s ""%string then 0%nat else length (multi_values s)
  | None => 0%nat
  end.

Definition single_keys : list string :=
  ["plan"; "food_habits"; "gender"; "education"; "marital_status";
   "currentResidingLocation"; "dob"]%string.

Definition multi_keys : list string :=
  ["caste"; "yob"; "gothram"; "height"; "weight"; "star"; "rasi"; "dosham";
   "occupation"; "annual_income"]%string.

Definition query_shape (qp : query) : nat * list bool * list nat :=
  (q_kind (match assoc_str qp "q"%string with Some s => s | None => ""%string end),
   map (fun k => present (assoc_str qp k)) single_keys,
   map (fun k => multi_count (assoc_str qp k)) multi_keys).

Definition same_text (a b : where_state) : Prop :=
  ws_filters a = ws_filters b /\ ws_idx a = ws_idx b /\
  length (ws_params a) = length (ws_params b).

Lemma add_search_same (q1 q2 : string) (a b : where_state) :
  q_kind q1 = q_kind q2 -> same_text a b -> same_text (add_search q1 a) (add_search q2 b).
Proof.
  unfold q_kind, add_search. intros Hk [S1 [S2 S3]].
  destruct (String.eqb q1 ""), (String.eqb q2 ""), (parseInt_js (Some q1)), (parseInt_js (Some q2));
    try discriminate Hk; unfold same_text; cbn [ws_filters ws_idx ws_params];
    rewrite ?length_app, ?S1, ?S2, ?S3; simpl; repeat split; auto.
Qed.

Lemma add_equal_same (c : string) (v1 v2 : option string) (a b : where_state) :
  present v1 = present v2 -> same_text a b -> same_text (add_equal c v1 a) (add_equal c v2 b).
Proof.
  unfold present, add_equal. intros Hp [S1 [S2 S3]].
  destruct v1 as [s1|], v2 as [s2|];
    [destruct (String.eqb s1 ""), (String.eqb s2 "") | destruct (String.eqb s1 "")
    | destruct (String.eqb s2 "") | ]; try discriminate Hp;
    unfold same_text; cbn [ws_filters ws_idx ws_params];
    rewrite ?length_app, ?S1, ?S2, ?S3; simpl; repeat split; auto.
Qed.

Lemma add_location_same (v1 v2 : option string) (a b : where_state) :
  present v1 = present v2 -> same_text a b -> same_text (add_location v1 a) (add_location v2 b).
Proof.
  unfold present, add_location. intros Hp [S1 [S2 S3]].
  destruct v1 as [s1|], v2 as [s2|];
    [destruct (String.eqb s1 ""), (String.eqb s2 "") | destruct (String.eqb s1 "")
    | destruct (String.eqb s2 "") | ]; try discriminate Hp;
    unfold same_text; cbn [ws_filters ws_idx ws_params];
    rewrite ?length_app, ?S1, ?S2, ?S3; simpl; repeat split; auto.
Qed.

Lemma add_dob_same (v1 v2 : option string) (a b : where_state) :
  present v1 = present v2 -> same_text a b -> same_text (add_dob v1 a) (add_dob v2 b).
Proof.
  unfold present, add_dob. intros Hp [S1 [S2 S3]].
  destruct v1 as [s1|], v2 as [s2|];
    [destruct (String.eqb s1 ""), (String.eqb s2 "") | destruct (String.eqb s1 "")
    | destruct (String.eqb s2 "") | ]; try discriminate Hp;
    unfold same_text; cbn [ws_filters ws_idx ws_params];
    rewrite ?length_app, ?S1, ?S2, ?S3; simpl; repeat split; auto.
Qed.

Lemma add_multi_unchanged (c : string) (v : option string) (st : where_state) :
  multi_count v = 0%nat -> add_multi c v st = st.
Proof.
  unfold multi_count, add_multi. destruct v as [s|]; [|reflexivity].
  destruct (String.eqb s ""); [reflexivity|]. cbv zeta.
  destruct (multi_values s); [reflexivity | discriminate].
Qed.

Lemma add_multi_same (c : string) (v1 v2 : option string) (a b : where_state) :
  multi_count v1 = multi_count v2 -> same_text a b -> same_text (add_multi c v1 a) (add_multi c v2 b).
Proof.
  intros Hm Hs. destruct (multi_count v1) as [|n] eqn:H1.
  - rewrite (add_multi_unchanged c v1 a H1), (add_multi_unchanged c v2 b (eq_sym Hm)). exact Hs.
  - destruct Hs as [S1 [S2 S3]].
    unfold multi_count in H1, Hm. unfold add_multi.
    destruct v1 as [s1|]; [|discriminate H1]. destruct v2 as [s2|]; [|discriminate Hm].
    destruct (String.eqb s1 ""); [discriminate H1|]. destruct (String.eqb s2 ""); [discriminate Hm|].
    cbv zeta.
    destruct (multi_values s1) as [|x1 xs1]; [discriminate|].
    destruct (multi_values s2) as [|x2 xs2]; [discriminate|].
    unfold same_text; cbn [ws_filters ws_idx ws_params].
    rewrite !length_app, !length_map, S1, S2, S3, H1, <- Hm. repeat split; reflexivity.
Qed.

Lemma build_where_state_same (qp1 qp2 : query) :
  query_shape qp1 = query_shape qp2 -> same_text (build_where_state qp1) (build_where_state qp2).
Proof.
  unfold query_shape, single_keys, multi_keys. cbn [map]. intros H.
  injection H as Hq Hp1 Hp2 Hp3 Hp4 Hp5 Hp6 Hp7 Hm1 Hm2 Hm3 Hm4 Hm5 Hm6 Hm7 Hm8 Hm9 Hm10.
  unfold build_where_state. cbv zeta.
  apply add_dob_same; [assumption|].
  apply add_multi_same; [assumption|]. apply add_multi_same; [assumption|].
  apply add_multi_same; [assumption|]. apply add_multi_same; [assumption|].
  apply add_multi_same; [assumption|]. apply add_multi_same; [assumption|].
  apply add_multi_same; [assumption|]. apply add_multi_same; [assumption|].
  apply add_multi_same; [assumption|]. apply add_multi_same; [assumption|].
  apply add_location_same; [assumption|].
  apply add_equal_same; [assumption|]. apply add_equal_same; [assumption|].
  apply add_equal_same; [assumption|]. apply add_equal_same; [assumption|].
  apply add_equal_same; [assumption|].
  apply add_search_same; [assumption|].
  split; [reflexivity|split; reflexivity].
Qed.

(** Query values reach the statements only as parameters: two query strings
    of the same shape (the same kind of search term, the same simple filters
    present, the same number of values in each multi-value filter) give the
    same [WHERE] text, the same number of parameters and the same [LIMIT] and
    [OFFSET] placeholders, whatever the values' text. *)
Theorem build_list_query_text_by_shape (qp1 qp2 : query) :
  query_shape qp1 = query_shape qp2 ->
  lq_where (build_list_query qp1) = lq_where (build_list_query qp2) /\
  length (lq_params (build_list_query qp1)) = length (lq_params (build_list_query qp2)) /\
  lq_limit_ph (build_list_query qp1) = lq_limit_ph (build_list_query qp2) /\
  lq_offset_ph (build_list_query qp1) = lq_offset_ph (build_list_query qp2).
Proof.
  intros H. destruct (build_where_state_same qp1 qp2 H) as [S1 [S2 S3]].
  unfold build_list_query. cbv zeta. cbn [lq_where lq_params lq_limit_ph lq_offset_ph].
  rewrite S1, S2, S3. auto.
Qed.

Lemma build_list_query_text_by_shape_witness :
  lq_where (build_list_query [("q", "x'); DROP TABLE t1; --"); ("caste", "a,b")]%string) =
  lq_where (build_list_query [("q", "bob"); ("caste", "' OR 1=1 --, c")]%string).
Proof.
  apply (build_list_query_text_by_shape
           [("q", "x'); DROP TABLE t1; --"); ("caste", "a,b")]%string
           [("q", "bob"); ("caste", "' OR 1=1 --, c")]%string).
  vm_compute. reflexivity.
Defined.

(** ** Multi-value filters *)

(** A value as [addMultiFilter] passes it on: non-empty, without a comma and
    without white space at either end. *)
Definition clean_value (v : string) : Prop :=
  v <> ""%string /\
  ~ In ","%char (list_ascii_of_string v) /\
  (forall c rest, list_ascii_of_string v = c :: rest -> is_space c = false) /\
  (forall init c, list_ascii_of_string v = init ++ [c] -> is_space c = false).

Lemma existsb_comma (l : list ascii) :
  In ","%char l -> existsb (Ascii.eqb ","%char) l = true.
Proof.
  intros Hin. apply existsb_exists. exists ","%char. split; [exact Hin | apply Ascii.eqb_refl].
Qed.

(** A decision procedure for [clean_value]. *)
Definition clean_valueb (v : string) : bool :=
  let l := list_ascii_of_string v in
  negb (String.eqb v ""%string) && negb (existsb (Ascii.eqb ","%char) l) &&
  match l with c :: _ => negb (is_space c) | [] => true end &&
  match rev l with c :: _ => negb (is_space c) | [] => true end.

Lemma clean_valueb_spec (v : string) : clean_valueb v = true -> clean_value v.
Proof.
  unfold clean_valueb. cbv zeta. intros H.
  apply andb_prop in H as [H H4]. apply andb_prop in H as [H H3]. apply andb_prop in H as [H1 H2].
  split; [|split; [|split]].
  - apply negb_true_iff, String.eqb_neq in H1. exact H1.
  - intros Hin. apply negb_true_iff in H2. rewrite (existsb_comma _ Hin) in H2.
    discriminate H2.
  - intros c rest Hl. rewrite Hl in H3. apply negb_true_iff in H3. exact H3.
  - intros init c Hl. rewrite Hl, rev_app_distr in H4. apply negb_true_iff in H4. exact H4.
Qed.

Lemma drop_while_head (p : ascii -> bool) (l r : list ascii) (c : ascii) :
  drop_while p l = c :: r -> p c = false.
Proof.
  induction l as [| d l IH]; simpl; [discriminate|].
  destruct (p d) eqn:Hd; [exact IH|]. intros H. injection H as -> _. exact Hd.
Qed.

Lemma drop_while_suffix (p : ascii -> bool) (l : list ascii) :
  exists pre, l = pre ++ drop_while p l.
Proof.
  induction l as [| d l [pre IH]]; simpl; [exists []; reflexivity|].
  destruct (p d); [exists (d :: pre); simpl; f_equal; exact IH | exists []; reflexivity].
Qed.

Lemma drop_while_id (p : ascii -> bool) (l : list ascii) :
  (forall c r, l = c :: r -> p c = false) -> drop_while p l = l.
Proof.
  destruct l as [| c r]; intros H; [reflexivity|]. simpl. rewrite (H c r eq_refl). reflexivity.
Qed.

Lemma trim_in (l : list ascii) (c : ascii) : In c (trim l) -> In c l.
Proof.
  unfold trim. intros H. apply in_rev in H.
  destruct (drop_while_suffix is_space (rev (drop_while is_space l))) as [pre1 H1].
  destruct (drop_while_suffix is_space l) as [pre2 H2].
  assert (H3 : In c (rev (drop_while is_space l))) by (rewrite H1; apply in_or_app; right; exact H).
  apply in_rev in H3. rewrite H2. apply in_or_app. right. exact H3.
Qed.

Lemma trim_last (l init : list ascii) (c : ascii) :
  trim l = init ++ [c] -> is_space c = false.
Proof.
  unfold trim. intros H.
  assert (H' : drop_while is_space (rev (drop_while is_space l)) = c :: rev init).
  { rewrite <- (rev_involutive (drop_while _ _)), H, rev_app_distr. reflexivity. }
  exact (drop_while_head _ _ _ _ H').
Qed.

Lemma trim_first (l rest : list ascii) (c : ascii) :
  trim l = c :: rest -> is_space c = false.
Proof.
  unfold trim. intros H.
  destruct (drop_while_suffix is_space (rev (drop_while is_space l))) as [pre H1].
  assert (H2 : drop_while is_space (rev (drop_while is_space l)) = rev rest ++ [c]).
  { rewrite <- (rev_involutive (drop_while _ (rev _))), H. reflexivity. }
  rewrite H2 in H1.
  assert (H3 : drop_while is_space l = c :: rev (pre ++ rev rest)).
  { rewrite <- (rev_involutive (drop_while is_space l)), H1, app_assoc, rev_app_distr. reflexivity. }
  exact (drop_while_head _ _ _ _ H3).
Qed.

Lemma split_comma_aux_no_comma (l cur piece : list ascii) :
  ~ In ","%char cur -> In piece (split_comma_aux cur l) -> ~ In ","%char piece.
Proof.
  revert cur. induction l as [| d l IH]; intros cur Hc Hin; simpl in Hin.
  - destruct Hin as [<- | []]. rewrite <- in_rev. exact Hc.
  - destruct (Ascii.eqb d ","%char) eqn:Hd.
    + destruct Hin as [<- | Hin]; [rewrite <- in_rev; exact Hc|].
      exact (IH [] (fun H => H) Hin).
    + apply (IH (d :: cur)); [| exact Hin].
      intros [H | H]; [subst d; discriminate Hd | exact (Hc H)].
Qed.

(** [addMultiFilter] pushes the comma-separated pieces of the value, trimmed,
    with the empty ones dropped: each pushed parameter is a non-empty string
    without a comma and without white space at either end. *)
Theorem add_multi_params_clean (c s : string) (st : where_state) :
  s <> ""%string ->
  ws_params (add_multi c (Some s) st) = ws_params st ++ map JStr (multi_values s) /\
  (forall v, In v (multi_values s) -> clean_value v).
Proof.
  intros Hs. split.
  - unfold add_multi. apply String.eqb_neq in Hs. rewrite Hs. cbv zeta.
    destruct (multi_values s); [rewrite app_nil_r|]; reflexivity.
  - intros v Hv. unfold multi_values in Hv. apply filter_In in Hv as [Hv Hne].
    apply in_map_iff in Hv as (piece & <- & Hp).
    rewrite negb_true_iff, String.eqb_neq in Hne.
    split; [exact Hne|]. rewrite list_ascii_of_string_of_list_ascii.
    split; [|split].
    + intros H. apply trim_in in H.
      exact (split_comma_aux_no_comma _ [] piece (fun H => H) Hp H).
    + intros d rest H. exact (trim_first _ _ _ H).
    + intros init d H. exact (trim_last _ _ _ H).
Qed.

Lemma add_multi_params_clean_witness :
  ws_params (add_multi "caste" (Some " a, ,b ,"%string) (mk_ws [] [] 1)) =
    [JStr "a"; JStr "b"]%string /\ clean_value "b"%string.
Proof.
  destruct (add_multi_params_clean "caste" " a, ,b ,"%string (mk_ws [] [] 1)
              ltac:(intros H; discriminate H)) as [H1 H2].
  split; [rewrite H1; vm_compute; reflexivity|].
  apply H2. vm_compute. right. left. reflexivity.
Defined.

Lemma list_ascii_of_string_append (a b : string) :
  list_ascii_of_string (a ++ b) = list_ascii_of_string a ++ list_ascii_of_string b.
Proof. induction a as [| c a IH]; simpl; [reflexivity | rewrite IH; reflexivity]. Qed.

Lemma split_comma_aux_last (cur l : list ascii) :
  ~ In ","%char l -> split_comma_aux cur l = [rev cur ++ l].
Proof.
  revert cur. induction l as [| d l IH]; intros cur Hl; simpl.
  - rewrite app_nil_r. reflexivity.
  - destruct (Ascii.eqb d ","%char) eqn:Hd.
    + apply Ascii.eqb_eq in Hd. subst d. exfalso. apply Hl. left. reflexivity.
    + rewrite IH by (intros H; apply Hl; right; exact H). simpl. rewrite <- app_assoc. reflexivity.
Qed.

Lemma split_comma_aux_comma (cur l r : list ascii) :
  ~ In ","%char l -> split_comma_aux cur (l ++ ","%char :: r) = (rev cur ++ l) :: split_comma_aux [] r.
Proof.
  revert cur. induction l as [| d l IH]; intros cur Hl; simpl.
  - rewrite app_nil_r. reflexivity.
  - destruct (Ascii.eqb d ","%char) eqn:Hd.
    + apply Ascii.eqb_eq in Hd. subst d. exfalso. apply Hl. left. reflexivity.
    + rewrite IH by (intros H; apply Hl; right; exact H). simpl. rewrite <- app_assoc. reflexivity.
Qed.

Lemma trim_id (l : list ascii) :
  (forall c rest, l = c :: rest -> is_space c = false) ->
  (forall init c, l = init ++ [c] -> is_space c = false) ->
  trim l = l.
Proof.
  intros Hf Hl. unfold trim. rewrite (drop_while_id _ l Hf), (drop_while_id _ (rev l)).
  - apply rev_involutive.
  - intros c r Hr. apply (Hl (rev r) c). rewrite <- (rev_involutive l), Hr. reflexivity.
Qed.

Lemma split_comma_join (v : string) (vs : list string) :
  (forall w, In w (v :: vs) -> ~ In ","%char (list_ascii_of_string w)) ->
  split_comma (join "," (v :: vs)) = map list_ascii_of_string (v :: vs).
Proof.
  revert v. induction vs as [| w vs IH]; intros v H.
  - unfold split_comma. simpl join.
    rewrite split_comma_aux_last by (apply H; left; reflexivity). reflexivity.
  - unfold split_comma at 1.
    change (join "," (v :: w :: vs)) with (v ++ String ","%char (join "," (w :: vs)))%string.
    rewrite list_ascii_of_string_append. cbn [list_ascii_of_string].
    rewrite split_comma_aux_comma by (apply H; left; reflexivity).
    change (split_comma_aux [] (list_ascii_of_string (join "," (w :: vs))))
      with (split_comma (join "," (w :: vs))).
    rewrite IH by (intros u Hu; apply H; right; exact Hu).
    reflexivity.
Qed.

(** Splitting a comma-joined list of clean values gives the values back:
    [addMultiFilter] on [vs.join(",")] pushes exactly [vs]. *)
Theorem multi_values_join (vs : list string) :
  (forall v, In v vs -> clean_value v) -> multi_values (join "," vs) = vs.
Proof.
  intros H. destruct vs as [| v vs]; [reflexivity|].
  unfold multi_values.
  rewrite split_comma_join by (intros w Hw; exact (proj1 (proj2 (H w Hw)))).
  rewrite map_map.
  induction (v :: vs) as [| u us IH]; [reflexivity|].
  destruct (H u (or_introl eq_refl)) as (Hne & _ & Hf & Hl).
  simpl. rewrite (trim_id _ Hf Hl), string_of_list_ascii_of_string.
  apply String.eqb_neq in Hne. rewrite Hne. simpl.
  f_equal. apply IH. intros w Hw. apply H. right. exact Hw.
Qed.

Lemma multi_values_join_witness :
  multi_values (join "," ["Iyer"; "Iyengar"; "Mudaliar"]%string) = ["Iyer"; "Iyengar"; "Mudaliar"]%string.
Proof.
  apply multi_values_join. intros v Hv. apply clean_valueb_spec.
  repeat (destruct Hv as [<- | Hv]; [reflexivity|]). destruct Hv.
Defined.

(** ** The status write-back *)

(** [Date.parse] reads the clock only through the time-zone offset. *)
Lemma date_parse_tz (e e' : env) (s : string) :
  tz_ms e = tz_ms e' -> date_parse e s = date_parse e' s.
Proof. intros H. unfold date_parse. rewrite H. reflexivity. Qed.

Lemma js_new_date_tz (e e' : env) (v : jsval) :
  tz_ms e = tz_ms e' -> js_new_date e v = js_new_date e' v.
Proof. intros H. destruct v; try reflexivity. apply date_parse_tz, H. Qed.

(** [parseAnyDate] either falls back to the current instant, or gives an
    instant that does not depend on it. *)
Lemma parseAnyDate_now_or_fixed (e e' : env) (v : jsval) :
  tz_ms e = tz_ms e' ->
  (parseAnyDate e v = Some (now_ms e) /\ parseAnyDate e' v = Some (now_ms e'))
  \/ parseAnyDate e v = parseAnyDate e' v.
Proof.
  intros H. unfold parseAnyDate. rewrite (js_new_date_tz e e' v H).
  repeat match goal with
         | |- context [match ?x with _ => _ end] => destruct x
         | |- context [if ?x then _ else _] => destruct x
         end; auto; right; apply date_parse_tz, H.
Qed.

Lemma getplan_status_parse_now (e : env) (v : jsval) :
  parseAnyDate e v = Some (now_ms e) -> getplan_status e v = "active"%string.
Proof.
  intros H. unfold getplan_status. rewrite H.
  unfold set_hours_zero, time_clip.
  destruct (Z.abs (local_day e (now_ms e) * ms_per_day - tz_ms e) <=? 8640000000000000);
    [|reflexivity].
  pose proof (start_of_day_le e (now_ms e)) as Hle. unfold start_of_local_day in Hle.
  destruct (Z.ltb_spec (now_ms e) (local_day e (now_ms e) * ms_per_day - tz_ms e)).
  - lia.
  - reflexivity.
Qed.

(** The computed status is the same at every instant of a local day. *)
Lemma getplan_status_same_day (e e' : env) (v : jsval) :
  tz_ms e = tz_ms e' -> local_day e (now_ms e) = local_day e' (now_ms e') ->
  getplan_status e v = getplan_status e' v.
Proof.
  intros Htz Hday.
  destruct (parseAnyDate_now_or_fixed e e' v Htz) as [[H1 H2] | H].
  - rewrite (getplan_status_parse_now e v H1), (getplan_status_parse_now e' v H2).
    reflexivity.
  - unfold getplan_status, set_hours_zero. rewrite H, Hday, Htz. reflexivity.
Qed.

(** The correcting write is sent only when the stored status differs from the
    computed one; it carries the computed status and the row's id, and once it
    has been applied, reconciling the row again at any instant of the same
    local day (same time-zone offset) finds nothing to correct: it sends no
    second write and returns the same status. *)
Theorem updateplan_statusInDB_write_once (e : env) (ok : bool) (r : row)
    (res : js_res (option string)) (w : status_write) :
  updateplan_statusInDB e ok r = (res, Some w) ->
  sw_status w = getplan_status e (get r "expiry_date") /\ sw_id w = get r "id" /\
  js_lower (js_or (get r "plan_status") (JStr "")) <> JSRet (sw_status w) /\
  forall (e' : env) ok',
    tz_ms e' = tz_ms e -> local_day e' (now_ms e') = local_day e (now_ms e) ->
    updateplan_statusInDB e' ok' (set r "plan_status" (JStr (sw_status w))) =
      (JSRet (Some (sw_status w)), None).
Proof.
  unfold updateplan_statusInDB.
  destruct (truthy (get r "id")) eqn:Hid; [|discriminate]. cbn [negb].
  set (status := getplan_status e (get r "expiry_date")).
  assert (Hst : status = "active"%string \/ status = "expired"%string) by apply getplan_status_cases.
  destruct (js_lower (js_or (get r "plan_status") (JStr ""))) as [stored|] eqn:Hl; [|discriminate].
  destruct (String.eqb status stored) eqn:Hse; [discriminate|].
  assert (Hlow : to_lower status = status) by (destruct Hst as [-> | ->]; reflexivity).
  rewrite Hlow.
  intros H. assert (Hw : w = mk_status_write status (get r "id"))
    by (destruct ok; injection H as _ <-; reflexivity).
  subst w. cbn [sw_status sw_id].
  split; [reflexivity|]. split; [reflexivity|]. split.
  - intros Heq. injection Heq as <-. rewrite String.eqb_refl in Hse. discriminate Hse.
  - intros e' ok' Htz Hday.
    rewrite (get_set_other r "plan_status" "id") by (intros Hc; discriminate Hc).
    rewrite Hid. cbn [negb].
    rewrite (get_set_other r "plan_status" "expiry_date") by (intros Hc; discriminate Hc).
    rewrite (getplan_status_same_day e' e _ Htz Hday). fold status. rewrite get_set. cbn [String.eqb].
    destruct Hst as [-> | ->]; reflexivity.
Qed.

Lemma updateplan_statusInDB_write_once_witness :
  updateplan_statusInDB e_nov14 true row_stale_active =
    (JSRet (Some "expired"%string), Some (mk_status_write "expired" (JNum 1))) /\
  updateplan_statusInDB (mk_env (now_ms e_nov14 + 3600000) 0) false
    (set row_stale_active "plan_status" (JStr "expired")) =
    (JSRet (Some "expired"%string), None).
Proof.
  assert (H : updateplan_statusInDB e_nov14 true row_stale_active =
                (JSRet (Some "expired"%string), Some (mk_status_write "expired" (JNum 1))))
    by (vm_compute; reflexivity).
  split; [exact H|].
  exact (proj2 (proj2 (proj2 (updateplan_statusInDB_write_once e_nov14 true row_stale_active _ _ H)))
           (mk_env (now_ms e_nov14 + 3600000) 0) false eq_refl eq_refl).
Defined.

(** ** The renewals window *)

Lemma filter_all_false {A} (f : A -> bool) (l : list A) :
  (forall x, f x = false) -> filter f l = [].
Proof. intros H. induction l as [| x l IH]; simpl; [reflexivity|]. rewrite H. exact IH. Qed.

Lemma all_digits_none (l : list ascii) :
  (forall c, In c l -> is_digit c = false) -> all_digits l = false.
Proof.
  intros H. destruct l as [| c l]; [reflexivity|].
  unfold all_digits. simpl. rewrite (H c (or_introl eq_refl)). reflexivity.
Qed.

(** A [days] text that is not blank and has no digit is not a decimal
    integer: [Number] gives NaN (or an infinity, for [Infinity]), and the
    model has [None]. *)
Lemma renewal_days_no_digit (s : string) :
  trim (list_ascii_of_string s) <> [] ->
  forallb (fun c => negb (is_digit c)) (list_ascii_of_string s) = true ->
  renewal_days (Some s) = None.
Proof.
  intros Hne Hnd. rewrite forallb_forall in Hnd.
  assert (Hnd' : forall c, In c (trim (list_ascii_of_string s)) -> is_digit c = false).
  { intros c Hc. apply trim_in, Hnd in Hc. destruct (is_digit c); [discriminate Hc | reflexivity]. }
  unfold renewal_days. destruct (String.eqb_spec s "") as [-> | _]; [contradiction Hne; reflexivity|].
  unfold str_to_number. destruct (trim (list_ascii_of_string s)) as [| c r] eqn:Ht; [contradiction Hne; reflexivity|].
  assert (Hr : all_digits r = false)
    by (apply all_digits_none; intros d Hd; apply Hnd'; right; exact Hd).
  rewrite Hr, (all_digits_none (c :: r) Hnd').
  destruct (Ascii.eqb c "-"); [reflexivity|]. destruct (Ascii.eqb c "+"); reflexivity.
Qed.

(** A [days] parameter that is a negative integer, or is not blank and has
    no digit at all ([Number] gives NaN, or an infinity for [Infinity], and
    the limit date is an Invalid Date), makes the report empty, whatever the
    table holds. *)
Theorem renewals_due_empty_window (e : env) (days_q : option string) (store : list row) :
  ((exists d, renewal_days days_q = Some d /\ d < 0) \/
   (exists s, days_q = Some s /\ trim (list_ascii_of_string s) <> [] /\
              forallb (fun c => negb (is_digit c)) (list_ascii_of_string s) = true)) ->
  renewals_due e days_q store = [].
Proof.
  intros Hd.
  assert (Hd' : renewal_days days_q = None \/ exists d, renewal_days days_q = Some d /\ d < 0).
  { destruct Hd as [Hd | (s & -> & Hne & Hnd)]; [right; exact Hd|].
    left. apply renewal_days_no_digit; assumption. }
  clear Hd. rename Hd' into Hd. unfold renewals_due. cbv zeta. apply filter_all_false. intros u.
  unfold in_window. destruct (get u "expiry_date") as [| | | | | [x|]]; try reflexivity.
  destruct (set_hours_zero e (Some (now_ms e))) as [t|]; [|reflexivity].
  destruct Hd as [Hn | [d [Hs Hneg]]].
  - rewrite Hn. reflexivity.
  - rewrite Hs. unfold add_days, time_clip.
    destruct (Z.abs (t + d * ms_per_day) <=? 8640000000000000); [|reflexivity].
    unfold ms_per_day in *.
    destruct (t <=? x) eqn:H1; [|reflexivity]. apply Z.leb_le in H1.
    apply Z.leb_gt. lia.
Qed.

Lemma renewals_due_empty_window_witness :
  renewals_due e_nov14 (Some "-3"%string) [row_due5] = [] /\
  renewals_due e_nov14 (Some "Infinity"%string) [row_due5] = [].
Proof.
  split.
  - apply renewals_due_empty_window. left. exists (-3). split; [reflexivity | lia].
  - apply renewals_due_empty_window. right. exists "Infinity"%string.
    split; [reflexivity|]. split; [discriminate | reflexivity].
Defined.

(** ** Numeric timestamps in [parseAnyDate] *)

Lemma length_string_of_list_ascii (l : list ascii) :
  String.length (string_of_list_ascii l) = length l.
Proof. induction l as [| c l IH]; simpl; [reflexivity | rewrite IH; reflexivity]. Qed.

Lemma forallb_digits_not_space (ds : list ascii) :
  forallb is_digit ds = true -> forall c, In c ds -> is_space c = false.
Proof.
  intros H c Hin. apply digit_not_space. rewrite forallb_forall in H. exact (H c Hin).
Qed.

Lemma str_to_number_digits (ds : list ascii) :
  all_digits ds = true -> str_to_number (string_of_list_ascii ds) = Some (digits_value 0 ds).
Proof.
  intros H. destruct ds as [| c r]; [discriminate H|].
  assert (Hall : forallb is_digit (c :: r) = true) by exact H.
  unfold str_to_number. rewrite list_ascii_of_string_of_list_ascii.
  rewrite trim_id.
  - destruct (digit_not_sign c) as [Hm Hp]; [simpl in Hall; apply andb_prop in Hall; apply Hall|].
    rewrite Hm, Hp, H. reflexivity.
  - intros d rest Hd. apply (forallb_digits_not_space _ Hall). rewrite Hd. left. reflexivity.
  - intros init d Hd. apply (forallb_digits_not_space _ Hall). rewrite Hd.
    apply in_or_app. right. left. reflexivity.
Qed.

(** A string of ten or more digits is read as a timestamp: in milliseconds
    when its value exceeds 10^12, in seconds otherwise.  So a time written
    in seconds and the same time written in milliseconds give the same
    Date (1699963200 and 1699963200000, for instance). *)
Theorem parseAnyDate_digit_timestamp (e : env) (ds : list ascii) :
  all_digits ds = true -> (10 <= length ds)%nat ->
  parseAnyDate e (JStr (string_of_list_ascii ds)) =
    (let v := digits_value 0 ds in time_clip (if v >? 1000000000000 then v else v * 1000)).
Proof.
  intros Hd Hl. unfold parseAnyDate.
  assert (Ht : truthy (JStr (string_of_list_ascii ds)) = true).
  { destruct ds; [discriminate Hd | reflexivity]. }
  rewrite Ht. cbn [negb js_to_number js_string_length].
  rewrite str_to_number_digits by exact Hd.
  rewrite length_string_of_list_ascii.
  apply Nat.leb_le in Hl. rewrite Hl. reflexivity.
Qed.

Lemma parseAnyDate_digit_timestamp_witness :
  parseAnyDate e_nov14 (JStr "1699963200"%string) = Some 1699963200000 /\
  parseAnyDate e_nov14 (JStr "1699963200000"%string) = Some 1699963200000.
Proof.
  split.
  - exact (parseAnyDate_digit_timestamp e_nov14 (list_ascii_of_string "1699963200") eq_refl
             ltac:(vm_compute; lia)).
  - exact (parseAnyDate_digit_timestamp e_nov14 (list_ascii_of_string "1699963200000") eq_refl
             ltac:(vm_compute; lia)).
Defined.
